(** * kk-dailies: the command and filtergraph construction of [dailies.py]

    A shallow embedding of the [Dailies] class: the instance attributes set in
    [__init__], the temporary-path helpers, [fields_from_dict], [make_slate]
    and [make_mov].  Python strings are [string], argument vectors are
    [list string], dictionaries given by the caller or read from the
    configuration are [gmap]s, and [self.fields_data], whose iteration order
    the code depends on, is an association list.  Exceptions and the mutation
    of [self] are threaded through a small state-and-exception monad; every
    [subprocess.call] is recorded in the state.

    The library calls are those of CPython 3.8 and later.  What the module
    reads from outside itself (the platform name, the environment, the file
    system, [os.path], the configuration file and the sequence library) is
    the interface [Host]; it does not change during a run.  [get_media_info],
    which nothing calls, is left out. *)

From Stdlib Require Import ZArith Ascii String DecimalString.
From stdpp Require Import base option list gmap strings.

Local Open Scope Z_scope.

(** ** Python string operations used by the module *)

Module PyStr.

(** [''.join(pieces)] *)
Definition concat (pieces : list string) : string :=
  foldr String.append "" pieces.

(** [str(n)] for an [int]. *)
Definition of_Z (n : Z) : string :=
  NilZero.string_of_int (Z.to_int n).

(** [sub in s] *)
Fixpoint contains (sub s : string) : bool :=
  String.prefix sub s ||
  match s with
  | EmptyString => false
  | String _ s' => contains sub s'
  end.

(** [s.replace(old, new)] for a non-empty [old]: the occurrences are taken
    from the left and do not overlap.  [skip] counts the characters of an
    occurrence that are still to be dropped. *)
Fixpoint replace_from (skip : nat) (old new s : string) : string :=
  match s with
  | EmptyString => EmptyString
  | String c s' =>
      match skip with
      | S k => replace_from k old new s'
      | O =>
          if String.prefix old s
          then new +:+ replace_from (Nat.pred (String.length old)) old new s'
          else String c (replace_from O old new s')
      end
  end.

Definition replace (old new s : string) : string :=
  replace_from O old new s.

(** [s.split(sep)] for a one-character separator: empty pieces are kept. *)
Fixpoint split_go (sep : ascii) (cur : string) (s : string) : list string :=
  match s with
  | EmptyString => [String.rev cur]
  | String c s' =>
      if Ascii.eqb c sep
      then String.rev cur :: split_go sep EmptyString s'
      else split_go sep (String c cur) s'
  end.

Definition split (sep : ascii) (s : string) : list string :=
  split_go sep EmptyString s.

(** [sep.join(pieces)] *)
Fixpoint join (sep : string) (pieces : list string) : string :=
  match pieces with
  | [] => ""
  | [x] => x
  | x :: rest => x +:+ sep +:+ join sep rest
  end.

Definition is_digit (c : ascii) : bool :=
  let n := nat_of_ascii c in (Nat.leb 48 n && Nat.leb n 57)%bool.

(** [re.sub(r'%[0-9]+d', '#', s)].  [pend] is [None] outside a candidate
    match and [Some ds] after a percent sign followed by the digits [ds]
    (kept in reverse); a candidate that fails is copied out unchanged. *)
Fixpoint sub_frame_token_go (pend : option string) (s : string) : string :=
  let flush :=
    match pend with
    | None => ""
    | Some ds => String "%" (String.rev ds)
    end in
  match s with
  | EmptyString => flush
  | String c s' =>
      if Ascii.eqb c "%" then flush +:+ sub_frame_token_go (Some "") s'
      else
        match pend with
        | None => String c (sub_frame_token_go None s')
        | Some ds =>
            if is_digit c then sub_frame_token_go (Some (String c ds)) s'
            else if Ascii.eqb c "d" && negb (String.eqb ds "")
            then String "#" (sub_frame_token_go None s')
            else flush +:+ String c (sub_frame_token_go None s')
        end
  end.

Definition sub_frame_token (s : string) : string :=
  sub_frame_token_go None s.

End PyStr.

(** ** Python values held by the slate fields *)

(** The values the slate fields take: [None] (the initial value), a string or
    an integer. *)
Inductive pyval : Type :=
  | PyNone
  | PyStr (s : string)
  | PyInt (n : Z).

(** What [str.format] substitutes for a replacement field with an empty
    format specification. *)
Definition py_format (v : pyval) : string :=
  match v with
  | PyNone => "None"
  | PyStr s => s
  | PyInt n => PyStr.of_Z n
  end.

(** [d[k] = v] on a dictionary kept in insertion order. *)
Fixpoint dict_set (k : string) (v : pyval) (d : list (string * pyval))
  : list (string * pyval) :=
  match d with
  | [] => [(k, v)]
  | (k', v') :: rest =>
      if String.eqb k' k then (k', v) :: rest else (k', v') :: dict_set k v rest
  end.

(** [d[k]] on the same representation. *)
Fixpoint dict_get (k : string) (d : list (string * pyval)) : option pyval :=
  match d with
  | [] => None
  | (k', v') :: rest => if String.eqb k' k then Some v' else dict_get k rest
  end.

(** [l.index(x)] *)
Fixpoint list_index (x : string) (l : list string) : option nat :=
  match l with
  | [] => None
  | y :: rest => if String.eqb y x then Some O else S <$> list_index x rest
  end.

(** ** The host: what the module reads from its platform and its libraries *)

(** [config.yml] as the module reads it (section 6 of the design notes lists
    the keys). *)
Record Config : Type := {
  cfg_bars : string;
  cfg_color_bar : string;
  cfg_company_logo : string;
  cfg_company_font : string;
  cfg_body_font : string;
  cfg_video_pressets : gmap string string
}.

(** The functions of [os], [sys], [getpass] and [fileseq] the module calls.
    [os.path] is the implementation Python selects for the platform;
    [findSequenceOnDisk] gives the first and last frame of the sequence it
    finds and [None] where the library raises. *)
Class Host : Type := {
  script_dir : string;
  yaml_config : Config;
  sys_platform : string;
  os_environ : gmap string string;
  os_path_exists : string -> bool;
  os_path_abspath : string -> string;
  os_path_join : string -> string -> string;
  os_path_split : string -> string * string;
  getpass_getuser : string;
  findSequenceOnDisk : string -> option (Z * Z)
}.

(** The module-level flag [debug = True]. *)
Definition debug : bool := true.

(** ** The instance and the monad of its methods *)

Record Dailies : Type := {
  config : Config;
  _ffmpeg : string;
  _ffprobe : string;
  res : string;
  bars : string;
  color_bars : string;
  logo : string;
  logo_font_file : string;
  font_file : string;
  left_text_margin : string;
  top_text_margin : string;
  font_size : Z;
  line_spacing : Z;
  font_color : string;
  new_x : string;
  new_y : string;
  fields_data : list (string * pyval);
  tmp_files : list string
}.

(** The instance together with the argument vectors handed to
    [subprocess.call] so far, oldest first. *)
Record state : Type := {
  self : Dailies;
  sp_calls : list (list string)
}.

(** The exceptions the modelled code raises. *)
Inductive exn : Type :=
  | KeyError (key : string)
  | TypeError
  | AttributeError
  | FileSeqException.

Inductive outcome (A : Type) : Type :=
  | Return (a : A)
  | Raise (e : exn).
Arguments Return {A} a.
Arguments Raise {A} e.

(** A method takes the state and gives an outcome and the state it leaves:
    what was mutated before an exception stays mutated. *)
Definition M (A : Type) : Type := state -> outcome A * state.

Definition ret {A} (a : A) : M A := fun st => (Return a, st).
Definition raise {A} (e : exn) : M A := fun st => (Raise e, st).
Definition bind {A B} (m : M A) (k : A -> M B) : M B :=
  fun st =>
    match m st with
    | (Return a, st') => k a st'
    | (Raise e, st') => (Raise e, st')
    end.
Definition get_self : M Dailies := fun st => (Return (self st), st).
Definition modify_self (f : Dailies -> Dailies) : M unit :=
  fun st => (Return tt, {| self := f (self st); sp_calls := sp_calls st |}).

Notation "x <- m ;; k" := (bind m (fun x => k))
  (at level 100, m at next level, right associativity).
Notation "m ;;; k" := (bind m (fun _ => k))
  (at level 100, right associativity).

(** [sp.call(cmd)]: the exit status is not looked at. *)
Definition sp_call (cmd : list string) : M unit :=
  fun st => (Return tt, {| self := self st; sp_calls := sp_calls st ++ [cmd] |}).

Definition set_fields_data (fd : list (string * pyval)) (d : Dailies) : Dailies :=
  {| config := config d; _ffmpeg := _ffmpeg d; _ffprobe := _ffprobe d;
     res := res d; bars := bars d; color_bars := color_bars d; logo := logo d;
     logo_font_file := logo_font_file d; font_file := font_file d;
     left_text_margin := left_text_margin d;
     top_text_margin := top_text_margin d; font_size := font_size d;
     line_spacing := line_spacing d; font_color := font_color d;
     new_x := new_x d; new_y := new_y d;
     fields_data := fd; tmp_files := tmp_files d |}.

Definition set_tmp_files (tf : list string) (d : Dailies) : Dailies :=
  {| config := config d; _ffmpeg := _ffmpeg d; _ffprobe := _ffprobe d;
     res := res d; bars := bars d; color_bars := color_bars d; logo := logo d;
     logo_font_file := logo_font_file d; font_file := font_file d;
     left_text_margin := left_text_margin d;
     top_text_margin := top_text_margin d; font_size := font_size d;
     line_spacing := line_spacing d; font_color := font_color d;
     new_x := new_x d; new_y := new_y d;
     fields_data := fields_data d; tmp_files := tf |}.

(** The keys of [self.fields_data], in the order [__init__] writes them. *)
Definition FIELD_KEYS : list string :=
  ["company_name"; "project_name"; "lut"; "shot_name"; "file_name"; "fps";
   "frame_range"; "frame_total"; "handles"; "comp_res"; "date"; "user";
   "description"].

Section Methods.

Context {host : Host}.

(** [Dailies.__init__] *)
Definition Dailies_init : Dailies :=
  let ffmpeg := os_path_join (os_path_join script_dir "bin") "ffmpeg" in
  let ffprobe := os_path_join (os_path_join script_dir "bin") "ffprobe" in
  let r := os_path_join script_dir "resources" in
  {| config := yaml_config;
     _ffmpeg := if os_path_exists ffmpeg then ffmpeg else "ffmpeg";
     _ffprobe := if os_path_exists ffprobe then ffprobe else "ffprobe";
     res := r;
     bars := os_path_join r (cfg_bars yaml_config);
     color_bars := os_path_join r (cfg_color_bar yaml_config);
     logo := os_path_join r (cfg_company_logo yaml_config);
     logo_font_file := os_path_join r (cfg_company_font yaml_config);
     font_file := os_path_join r (cfg_body_font yaml_config);
     left_text_margin := "(w)/2+150";
     top_text_margin := "380";
     font_size := 40;
     line_spacing := 40;
     font_color := "White";
     new_x := "1920";
     new_y := "1080";
     fields_data := (fun k => (k, PyNone)) <$> FIELD_KEYS;
     tmp_files := [] |}.

(** The loop of [_get_tmp_dir] over the components of the Windows path:
    it walks the list it is updating, by position. *)
Definition tilde_step (tmp : list string) (i : nat) : list string :=
  match tmp !! i with
  | Some item =>
      if PyStr.contains "~1" item
      then match list_index item tmp with
           | Some j => <[j := getpass_getuser]> tmp
           | None => tmp
           end
      else tmp
  | None => tmp
  end.

(** [Dailies._get_tmp_dir]: [os.path.abspath(None)] raises [TypeError] (an
    [AttributeError] under Python 2's [posixpath]).  On a platform that is
    none of the three the method returns [None]. *)
Definition _get_tmp_dir : M (option string) :=
  if String.eqb sys_platform "darwin" || PyStr.contains "linux" sys_platform
  then
    match os_environ !! "TMPDIR" with
    | None => raise TypeError
    | Some v => ret (Some (os_path_abspath v))
    end
  else if String.eqb sys_platform "win32"
  then
    match os_environ !! "TEMP" with
    | None => raise TypeError
    | Some v =>
        let tmp := PyStr.replace "\" "/" (os_path_abspath v) in
        let tmp := PyStr.split "/" tmp in
        let tmp := foldl tilde_step tmp (seq 0 (length tmp)) in
        ret (Some (PyStr.join "/" tmp))
    end
  else ret None.

(** [Dailies._get_tmp_file]: [os.path.exists(None)] raises [TypeError], and
    the module [os] has no attribute [mkdirs], so a directory that does not
    exist yet ends the call with [AttributeError]. *)
Definition _get_tmp_file (name : string) : M string :=
  tmp_dir <- _get_tmp_dir ;;
  match tmp_dir with
  | None => raise TypeError
  | Some dir =>
      if os_path_exists dir
      then
        let temp_file_path := os_path_join dir name in
        modify_self (fun d => set_tmp_files (tmp_files d ++ [temp_file_path]) d) ;;;
        ret temp_file_path
      else raise AttributeError
  end.

(** [Dailies._get_seq] *)
Definition _get_seq (path : string) : M (Z * Z) :=
  match findSequenceOnDisk (PyStr.sub_frame_token path) with
  | Some se => ret se
  | None => raise FileSeqException
  end.

(** [Dailies.fields_from_dict]: the loop runs over the items of
    [self.fields_data] as they are when it starts and assigns under keys
    that are already there. *)
Fixpoint fields_loop (items : list (string * pyval))
    (fields_dict : gmap string pyval) : M unit :=
  match items with
  | [] => ret tt
  | (k, _) :: rest =>
      match fields_dict !! k with
      | None => raise (KeyError k)
      | Some v =>
          modify_self (fun d => set_fields_data (dict_set k v (fields_data d)) d) ;;;
          fields_loop rest fields_dict
      end
  end.

Definition fields_from_dict (fields_dict : gmap string pyval) : M unit :=
  d <- get_self ;;
  fields_loop (fields_data d) fields_dict.

(** The keyword arguments of the slate template that read
    [self.fields_data], in the order the call evaluates them. *)
Definition SLATE_KWARGS : list string :=
  ["project_name"; "company_name"; "lut"; "shot_name"; "file_name"; "fps";
   "frame_range"; "frame_total"; "handles"; "comp_res"; "date"; "user";
   "description"].

Fixpoint first_missing (keys : list string) (fd : list (string * pyval))
  : option string :=
  match keys with
  | [] => None
  | k :: rest =>
      match dict_get k fd with
      | None => Some k
      | Some _ => first_missing rest fd
      end
  end.

(** The subscriptions [self.fields_data['...']] of [make_slate]: the first
    key that is not there raises [KeyError]; otherwise every keyword has its
    value. *)
Definition slate_kwargs : M (string -> pyval) :=
  d <- get_self ;;
  match first_missing SLATE_KWARGS (fields_data d) with
  | Some k => raise (KeyError k)
  | None => ret (fun k => default PyNone (dict_get k (fields_data d)))
  end.

(** The three strings [make_slate] formats first. *)
Definition slate_p (d : Dailies) : string :=
  PyStr.concat ["x="; left_text_margin d; "-text_w:y="; top_text_margin d;
                "+"; PyStr.of_Z (line_spacing d)].

Definition slate_pv (d : Dailies) : string :=
  PyStr.concat ["x="; left_text_margin d; "+10:y="; top_text_margin d;
                "+"; PyStr.of_Z (line_spacing d)].

Definition slate_text (d : Dailies) : string :=
  PyStr.concat ["drawtext=fontsize="; PyStr.of_Z (font_size d);
                ":fontcolor="; font_color d;
                ":fontfile='"; font_file d; "':text"].

(** The template [filters] of [make_slate] after [.format]; [kw k] is the
    value of [self.fields_data[k]]. *)
Definition slate_filters (d : Dailies) (kw : string -> pyval) : string :=
  let p := slate_p d in
  let pv := slate_pv d in
  let text := slate_text d in
  let v k := py_format (kw k) in
  PyStr.concat [
    "[1:v] scale="; new_x d; ":"; new_y d; ", setsar=1:1 [base]; ";
    "[0:v] scale="; new_x d; ":"; new_y d; " [thumbnail]; ";
    "[thumbnail][3:v] overlay [thumbnail]; ";
    "[thumbnail][3:v] overlay=x=(main_w-overlay_w):y=(main_h-overlay_h) [thumbnail]; ";
    "[thumbnail] scale=(iw/4):(ih/4) [thumbnail]; ";
    "[base][thumbnail] overlay=((main_w-overlay_w)/2)-500:(main_h-overlay_h)/2 [base]; ";
    "[2:v] scale=-1:-1 [self.bars]; ";
    "[base][self.bars] overlay=x=(main_w-overlay_w):y=(main_h-overlay_h-50) [base]; ";
    "[4:v] scale=(iw*0.2):(ih*0.2) [self.logo]; ";
    "[base][self.logo] overlay=x=500:y=100 [base]; ";
    "[base] ";
    "drawtext=fontsize=80:fontcolor="; font_color d; ":fontfile=";
      logo_font_file d; ":text="; v "company_name"; ":x=690:y=130, ";
    "drawtext=fontsize=50:fontcolor="; font_color d; ":fontfile=";
      font_file d; ":text="; v "project_name"; ":x=(w)/2:y=250, ";
    text; "='LUT\: ':"; p; "*0, ";
    text; "="; v "lut"; ":"; pv; "*0, ";
    text; "='Shot name\: ':"; p; "*1, ";
    text; "="; v "shot_name"; ":"; pv; "*1, ";
    text; "='File name\: ':"; p; "*2, ";
    text; "="; v "file_name"; ":"; pv; "*2, ";
    text; "='FPS\: ':"; p; "*3, ";
    text; "="; v "fps"; ":"; pv; "*3, ";
    text; "='Frame range\: ':"; p; "*4, ";
    text; "="; v "frame_range"; ":"; pv; "*4, ";
    text; "='Frame total\: ':"; p; "*5, ";
    text; "="; v "frame_total"; ":"; pv; "*5, ";
    text; "='Handles\: ':"; p; "*6, ";
    text; "="; v "handles"; ":"; pv; "*6, ";
    text; "='Comp resolution\: ':"; p; "*7, ";
    text; "="; v "comp_res"; ":"; pv; "*7, ";
    text; "='Date\: ':"; p; "*8, ";
    text; "="; v "date"; ":"; pv; "*8, ";
    text; "='User\: ':"; p; "*9, ";
    text; "="; v "user"; ":"; pv; "*9, ";
    text; "='Description\: ':"; p; "*10, ";
    text; "="; v "description"; ":"; pv; "*10 "
  ].

(** The argument vector of [make_slate] before the debug branch. *)
Definition slate_cmd (d : Dailies) (start : Z) (src_seq filters output : string)
  : list string :=
  [_ffmpeg d; "-v"; "quiet"; "-y"; "-start_number"; PyStr.of_Z start;
   "-i"; src_seq;
   "-f"; "lavfi"; "-i"; "color=c=black"; "-i"; bars d; "-i"; color_bars d;
   "-i"; logo d; "-vframes"; "1"; "-filter_complex"; filters; output].

(** [cmd.pop(1); cmd.pop(1)] under [if debug]. *)
Definition debug_pops (cmd : list string) : list string :=
  if debug then delete 1%nat (delete 1%nat cmd) else cmd.

(** [Dailies.make_slate] *)
Definition make_slate (src_seq : string) : M string :=
  output <- _get_tmp_file "tmp_slate.png" ;;
  seq <- _get_seq src_seq ;;
  d <- get_self ;;
  kw <- slate_kwargs ;;
  let filters := slate_filters d kw in
  let cmd := debug_pops (slate_cmd d seq.1 src_seq filters output) in
  sp_call cmd ;;;
  ret output.

(** The encoding options [make_mov] uses when the preset is not found. *)
Definition DEFAULT_VIDEO_SETTINGS : list string :=
  ["-crf"; "18"; "-vcodec"; "mjpeg"; "-pix_fmt"; "yuvj444p";
   "-qmin"; "1"; "-qmax"; "1"; "-r"; "24"].

Definition video_settings_of (d : Dailies) (preset : string) : list string :=
  match cfg_video_pressets (config d) !! preset with
  | Some settings => PyStr.split " " settings
  | None => DEFAULT_VIDEO_SETTINGS
  end.

Definition mov_base_filter (d : Dailies) : string :=
  PyStr.concat ["[1:v] scale="; new_x d; ":"; new_y d; ", setsar=1:1 [base]; ";
                "[base] null "].

Definition slate_filter : string :=
  PyStr.concat ["[base]; ";
                "[0:v] trim=start_frame=0:end_frame=1 [slate]; ";
                "[slate][base] concat "].

Definition burnin_filter (d : Dailies) (file_name : string) (seq : Z * Z)
  : string :=
  PyStr.concat [
    "[base]; [base] ";
    "drawtext=fontsize=30: ";
    "fontcolor="; font_color d; ": ";
    "fontfile="; font_file d; ": ";
    "expansion=none: ";
    "text="; file_name; ": ";
    "x=10:y=(h-(text_h+10)): ";
    "enable='between(n,1,99999)', ";
    "drawtext=fontsize=30: ";
    "fontcolor="; font_color d; ": ";
    "fontfile="; font_file d; ": ";
    "start_number=1000: ";
    "text=@frame_number \["; PyStr.of_Z seq.1; "-"; PyStr.of_Z seq.2; "\]: ";
    "x=(w-(text_w+10)):y=(h-(text_h+10)): ";
    "enable='between(n,1,99999)'"
  ].

(** The graph of [make_mov], from the base step to the replacement of the
    frame-number placeholder. *)
Definition mov_filters (d : Dailies) (file_name : string) (seq : Z * Z)
    (burnin slate : bool) : string :=
  let filters := mov_base_filter d in
  let filters := if slate then filters +:+ slate_filter else filters in
  let filters :=
    if burnin then filters +:+ burnin_filter d file_name seq else filters in
  PyStr.replace "@frame_number" "%{n}" filters.

(** [Dailies.make_mov] *)
Definition make_mov (src_seq out_mov preset : string) (burnin slate : bool)
  : M string :=
  d <- get_self ;;
  let video_settings := video_settings_of d preset in
  seq <- _get_seq src_seq ;;
  let file_name := (os_path_split src_seq).2 in
  let filters := mov_filters d file_name seq burnin slate in
  let cmd := [_ffmpeg d; "-v"; "quiet"; "-y"] in
  cmd <- (if slate
          then (slate_path <- make_slate src_seq ;;
                ret (cmd ++ ["-i"; slate_path]))
          else ret (cmd ++ ["-f"; "lavfi"; "-i"; "nullsrc=s=256x256:d=5"])) ;;
  let cmd := cmd ++ ["-start_number"; PyStr.of_Z seq.1; "-i"; src_seq] in
  let cmd := cmd ++ video_settings in
  let cmd := cmd ++ ["-filter_complex"; filters; out_mov] in
  let cmd := debug_pops cmd in
  sp_call cmd ;;;
  ret out_mov.

End Methods.

(** ** Reading an argument vector the way the external engine does *)

(** The inputs of an engine command line, in stream order: every [-i] takes
    the next argument as an input, and a [-f] met since the previous input
    forces that input's format.  The first element of the vector is the
    executable. *)
Fixpoint inputs_from (fmt : option string) (args : list string)
  : list (option string * string) :=
  match args with
  | [] => []
  | a :: rest =>
      match rest with
      | [] => []
      | x :: rest' =>
          if String.eqb a "-i" then (fmt, x) :: inputs_from None rest'
          else if String.eqb a "-f" then inputs_from (Some x) rest'
          else inputs_from fmt rest
      end
  end.

Definition ffmpeg_inputs (cmd : list string) : list (option string * string) :=
  inputs_from None (tail cmd).

(** ** A POSIX host to run the methods on *)

Module Posix.

(** [posixpath.join] of two components. *)
Definition join (a b : string) : string :=
  if String.prefix "/" b then b
  else if String.eqb a "" then b
  else if String.prefix "/" (String.rev a) then a +:+ b
  else a +:+ "/" +:+ b.

Fixpoint lstrip_slash (s : string) : string :=
  match s with
  | String c s' => if Ascii.eqb c "/" then lstrip_slash s' else s
  | EmptyString => EmptyString
  end.

(** [posixpath.split]: the tail is what follows the last slash; the head
    loses its trailing slashes unless it consists of slashes only. *)
Definition split (p : string) : string * string :=
  let tl := default "" (last (PyStr.split "/" p)) in
  let hd := String.substring 0 (String.length p - String.length tl) p in
  let stripped := String.rev (lstrip_slash (String.rev hd)) in
  (if String.eqb stripped "" then hd else stripped, tl).

Definition sample_config : Config :=
  {| cfg_bars := "bars.png";
     cfg_color_bar := "color_bars.png";
     cfg_company_logo := "logo.png";
     cfg_company_font := "logo_font.ttf";
     cfg_body_font := "body_font.ttf";
     cfg_video_pressets :=
       {[ "h264" := "-vcodec libx264 -pix_fmt yuv420p -r 24" ]} |}.

(** A Linux host with [TMPDIR=/tmp], every path present, and the sequence
    of every pattern running from frame 1001 to frame 1050.  The paths
    handed to [os.path.abspath] on it are absolute and normalised, where
    that function is the identity. *)
Definition sample_host : Host :=
  {| script_dir := "/opt/dailies";
     yaml_config := sample_config;
     sys_platform := "linux2";
     os_environ := {[ "TMPDIR" := "/tmp" ]};
     os_path_exists := fun _ => true;
     os_path_abspath := fun p => p;
     os_path_join := join;
     os_path_split := split;
     getpass_getuser := "artist";
     findSequenceOnDisk := fun _ => Some (1001, 1050) |}.

(** The same host with no [TMPDIR] in its environment. *)
Definition bare_host : Host :=
  {| script_dir := "/opt/dailies";
     yaml_config := sample_config;
     sys_platform := "linux2";
     os_environ := ∅;
     os_path_exists := fun _ => true;
     os_path_abspath := fun p => p;
     os_path_join := join;
     os_path_split := split;
     getpass_getuser := "artist";
     findSequenceOnDisk := fun _ => Some (1001, 1050) |}.

Definition sample_state : state :=
  {| self := @Dailies_init sample_host; sp_calls := [] |}.

End Posix.

(** ** A Windows host *)

Module Windows.

Definition is_sep (c : ascii) : bool := Ascii.eqb c "/" || Ascii.eqb c "\".

(** The part of a path after its last separator, kept in reverse while the
    path is read from its end. *)
Fixpoint tail_rev (rev_path : string) : string :=
  match rev_path with
  | EmptyString => EmptyString
  | String c s' => if is_sep c then EmptyString else String c (tail_rev s')
  end.

Fixpoint strip_seps (rev_path : string) : string :=
  match rev_path with
  | String c s' => if is_sep c then strip_seps s' else rev_path
  | EmptyString => EmptyString
  end.

(** [ntpath.split] of a path whose last component follows a separator. *)
Definition split (p : string) : string * string :=
  let tl := String.rev (tail_rev (String.rev p)) in
  let hd := String.substring 0 (String.length p - String.length tl) p in
  let stripped := String.rev (strip_seps (String.rev hd)) in
  (if String.eqb stripped "" then hd else stripped, tl).

(** [ntpath.join] of a directory that does not end in a separator and a
    relative name. *)
Definition join (a b : string) : string := a +:+ "\" +:+ b.

(** A Windows host whose [TEMP] holds a shortened user name. *)
Definition sample_host : Host :=
  {| script_dir := "C:\dailies";
     yaml_config := Posix.sample_config;
     sys_platform := "win32";
     os_environ := {[ "TEMP" := "C:\Users\EVILEY~1\AppData\Local\Temp" ]};
     os_path_exists := fun _ => true;
     os_path_abspath := fun p => p;
     os_path_join := join;
     os_path_split := split;
     getpass_getuser := "evileye_52";
     findSequenceOnDisk := fun _ => Some (1001, 1050) |}.

Definition sample_state : state :=
  {| self := @Dailies_init sample_host; sp_calls := [] |}.

End Windows.

(** ** Vocabulary of the statements

    Definitions the theorems are stated with: the outcome of the pure part of
    a method, the command a method builds from an instance, and the slate
    graph laid out row by row. *)

Section Vocabulary.

Context {host : Host}.

(** The outcome of [_get_tmp_dir], which neither reads nor writes the
    state. *)
Definition tmp_dir_outcome : outcome (option string) :=
  (_get_tmp_dir {| self := Dailies_init; sp_calls := [] |}).1.

(** The state [_get_tmp_file] leaves when it returns [path]. *)
Definition register_tmp (path : string) (st : state) : state :=
  {| self := set_tmp_files (tmp_files (self st) ++ [path]) (self st);
     sp_calls := sp_calls st |}.

(** The command [make_slate] hands to the engine from instance [d]. *)
Definition slate_command (d : Dailies) (seq : Z * Z) (src_seq output : string)
  : list string :=
  debug_pops
    (slate_cmd d seq.1 src_seq
       (slate_filters d (fun k => default PyNone (dict_get k (fields_data d))))
       output).

(** The command [make_mov] hands to the engine: [first_input] is what the
    slate branch or the null-source branch appended. *)
Definition mov_command (d : Dailies) (seq : Z * Z)
    (src_seq out_mov preset : string) (burnin slate : bool)
    (first_input : list string) : list string :=
  debug_pops
    (((([_ffmpeg d; "-v"; "quiet"; "-y"] ++ first_input)
        ++ ["-start_number"; PyStr.of_Z seq.1; "-i"; src_seq])
       ++ video_settings_of d preset)
      ++ ["-filter_complex";
          mov_filters d (os_path_split src_seq).2 seq burnin slate; out_mov]).

Definition NULL_INPUT : list string :=
  ["-f"; "lavfi"; "-i"; "nullsrc=s=256x256:d=5"].

(** The environment variable [_get_tmp_dir] reads on this platform. *)
Definition required_env_var : option string :=
  if String.eqb sys_platform "darwin" || PyStr.contains "linux" sys_platform
  then Some "TMPDIR"
  else if String.eqb sys_platform "win32" then Some "TEMP"
  else None.

(** What [fields_from_dict] stores for a mapping that has every key. *)
Definition fields_of_dict (fields_dict : gmap string pyval)
  : list (string * pyval) :=
  (fun k => (k, default PyNone (fields_dict !! k))) <$> FIELD_KEYS.

(** Two instances that differ at most in [fields_data] and [tmp_files]. *)
Definition same_attributes (d d' : Dailies) : Prop :=
  set_fields_data [] (set_tmp_files [] d)
  = set_fields_data [] (set_tmp_files [] d').

(** An instance as [__init__] built it, whatever was stored in its fields and
    its registry of temporary files since. *)
Definition from_init (d : Dailies) : Prop := same_attributes d Dailies_init.

(** The rows of the slate, first row first: the field each one shows and its
    caption. *)
Definition SLATE_ROWS : list (string * string) :=
  [("lut", "LUT"); ("shot_name", "Shot name"); ("file_name", "File name");
   ("fps", "FPS"); ("frame_range", "Frame range");
   ("frame_total", "Frame total"); ("handles", "Handles");
   ("comp_res", "Comp resolution"); ("date", "Date"); ("user", "User");
   ("description", "Description")].

(** The text draw of a caption in row [i]: right-aligned on the left margin,
    at the top margin plus [i] times the line spacing. *)
Definition slate_label_draw (d : Dailies) (i : nat) (caption : string) : string :=
  PyStr.concat
    ["drawtext=fontsize="; PyStr.of_Z (font_size d);
     ":fontcolor="; font_color d; ":fontfile='"; font_file d; "':text='";
     caption; "\: ':x="; left_text_margin d; "-text_w:y="; top_text_margin d;
     "+"; PyStr.of_Z (line_spacing d); "*"; PyStr.of_Z (Z.of_nat i)].

(** The text draw of a value in row [i]: ten pixels right of the left margin,
    at the same height as the caption. *)
Definition slate_value_draw (d : Dailies) (i : nat) (value : string) : string :=
  PyStr.concat
    ["drawtext=fontsize="; PyStr.of_Z (font_size d);
     ":fontcolor="; font_color d; ":fontfile='"; font_file d; "':text=";
     value; ":x="; left_text_margin d; "+10:y="; top_text_margin d;
     "+"; PyStr.of_Z (line_spacing d); "*"; PyStr.of_Z (Z.of_nat i)].

Definition slate_row (d : Dailies) (kw : string -> pyval) (i : nat)
    (row : string * string) : string :=
  PyStr.concat [slate_label_draw d i row.2; ", ";
                slate_value_draw d i (py_format (kw row.1))].

(** The graph up to the rows: the scaling and overlay steps and the two
    headline draws, which show [company_name] and [project_name] at fixed
    positions. *)
Definition slate_head (d : Dailies) (kw : string -> pyval) : string :=
  PyStr.concat [
    "[1:v] scale="; new_x d; ":"; new_y d; ", setsar=1:1 [base]; ";
    "[0:v] scale="; new_x d; ":"; new_y d; " [thumbnail]; ";
    "[thumbnail][3:v] overlay [thumbnail]; ";
    "[thumbnail][3:v] overlay=x=(main_w-overlay_w):y=(main_h-overlay_h) [thumbnail]; ";
    "[thumbnail] scale=(iw/4):(ih/4) [thumbnail]; ";
    "[base][thumbnail] overlay=((main_w-overlay_w)/2)-500:(main_h-overlay_h)/2 [base]; ";
    "[2:v] scale=-1:-1 [self.bars]; ";
    "[base][self.bars] overlay=x=(main_w-overlay_w):y=(main_h-overlay_h-50) [base]; ";
    "[4:v] scale=(iw*0.2):(ih*0.2) [self.logo]; ";
    "[base][self.logo] overlay=x=500:y=100 [base]; ";
    "[base] ";
    "drawtext=fontsize=80:fontcolor="; font_color d; ":fontfile=";
      logo_font_file d; ":text="; py_format (kw "company_name");
      ":x=690:y=130, ";
    "drawtext=fontsize=50:fontcolor="; font_color d; ":fontfile=";
      font_file d; ":text="; py_format (kw "project_name");
      ":x=(w)/2:y=250, "
  ].

End Vocabulary.

(** Concatenations as trees, to compare two of them whatever their
    bracketing. *)
Inductive cat_tree : Type :=
  | Leaf (s : string)
  | Cat (a b : cat_tree).

Fixpoint cat_denote (t : cat_tree) : string :=
  match t with
  | Leaf s => s
  | Cat a b => cat_denote a +:+ cat_denote b
  end.

Fixpoint cat_onto (t : cat_tree) (acc : string) : string :=
  match t with
  | Leaf s => s +:+ acc
  | Cat a b => cat_onto a (cat_onto b acc)
  end.

(** The form a value takes when the filtergraph parser is to read it as
    text: a backslash before every colon and every apostrophe, the way the
    captions of the template are written. *)
Fixpoint escape_reserved (s : string) : string :=
  match s with
  | EmptyString => EmptyString
  | String c s' =>
      if Ascii.eqb c ":" || Ascii.eqb c "'"
      then String "\" (String c (escape_reserved s'))
      else String c (escape_reserved s')
  end.

(** ** Sample runs on the POSIX host *)

Definition sample_src : string := "/shots/sh010.%04d.exr".
Definition sample_out : string := "/out/sh010.mov".

(** The fields of a shot, the time of day written with a colon and the
    artist's name with an apostrophe. *)
Definition sample_fields : gmap string pyval :=
  list_to_map
    [("company_name", PyStr "ACME"); ("project_name", PyStr "Heist");
     ("lut", PyStr "rec709"); ("shot_name", PyStr "sh010");
     ("file_name", PyStr "sh010.exr"); ("fps", PyInt 24);
     ("frame_range", PyStr "1001-1050"); ("frame_total", PyInt 50);
     ("handles", PyInt 8); ("comp_res", PyStr "2048x1152");
     ("date", PyStr "12:30"); ("user", PyStr "O'Neil");
     ("description", PyNone)].

(** The state after [fields_from_dict(sample_fields)] on a fresh instance. *)
Definition sample_populated : state :=
  (fields_from_dict sample_fields Posix.sample_state).2.

(** The graph of a command: its last argument but one. *)
Definition graph_of (cmd : list string) : string :=
  default "" (rev cmd !! 1%nat).

(** The graph of the slate command run on the populated instance. *)
Definition sample_slate_graph : string :=
  graph_of
    (default []
       (last (sp_calls
                (@make_slate Posix.sample_host sample_src
                   sample_populated).2))).

(** ** Further vocabulary: strings, fields and call sequences *)

(** [c in s] for one character. *)
Fixpoint char_in (c : ascii) (s : string) : bool :=
  match s with
  | EmptyString => false
  | String c' s' => Ascii.eqb c' c || char_in c s'
  end.

(** [s.isdigit()] on ASCII text, true of the empty string here. *)
Fixpoint all_digits (s : string) : bool :=
  match s with
  | EmptyString => true
  | String c s' => PyStr.is_digit c && all_digits s'
  end.

(** What the loop of [_get_tmp_dir] makes of one path component. *)
Definition untilde (user item : string) : string :=
  if PyStr.contains "~1" item then user else item.

(** The value the mapping gives a field. *)
Definition field_from (fields_dict : gmap string pyval)
    (kv : string * pyval) : string * pyval :=
  (kv.1, default PyNone (fields_dict !! kv.1)).

(** A call of a public or helper method, as a user of the class makes it. *)
Inductive call : Type :=
  | CallFieldsFromDict (fields_dict : gmap string pyval)
  | CallGetTmpFile (name : string)
  | CallMakeSlate (src_seq : string)
  | CallMakeMov (src_seq out_mov preset : string) (burnin slate : bool).

Section Calls.

Context {host : Host}.

(** The state a call leaves, whether it returns or raises. *)
Definition run_call (st : state) (c : call) : state :=
  match c with
  | CallFieldsFromDict fields_dict => (fields_from_dict fields_dict st).2
  | CallGetTmpFile name => (_get_tmp_file name st).2
  | CallMakeSlate src_seq => (make_slate src_seq st).2
  | CallMakeMov src_seq out_mov preset burnin slate =>
      (make_mov src_seq out_mov preset burnin slate st).2
  end.

(** The state after [Dailies()] and a sequence of calls on the instance. *)
Definition after_calls (calls : list call) : state :=
  foldl run_call {| self := Dailies_init; sp_calls := [] |} calls.

End Calls.

(** ** [get_media_info] *)

(** A value read by [json.loads]; the numbers are the integers. *)
#[warnings="-register-all"] Inductive json : Type :=
  | JNull
  | JBool (b : bool)
  | JInt (n : Z)
  | JStr (s : string)
  | JList (items : list json)
  | JDict (entries : list (string * json)).

(** What [subprocess.check_output] raises: the tool ended with a non-zero
    status, or it could not be started. *)
Inductive tool_error : Type :=
  | CalledProcessError (returncode : Z)
  | OSError.

(** The probe tool and the JSON reader: the output of a command or the
    exception of [check_output], and the value of a text or [None] where
    [json.loads] raises [ValueError]. *)
Class Probe : Type := {
  sp_check_output : list string -> tool_error + string;
  json_loads : string -> option json
}.

(** The exceptions that leave [get_media_info]. *)
Inductive media_exn : Type :=
  | ToolFailed (e : tool_error)
  | ValueError
  | IndexError
  | Builtin (e : exn).

Inductive media_outcome : Type :=
  | MediaReturn (stream : json)
  | MediaRaise (e : media_exn).

(** [bool(j)] *)
Definition truthy (j : json) : bool :=
  match j with
  | JNull => false
  | JBool b => b
  | JInt n => negb (n =? 0)
  | JStr s => negb (String.eqb s "")
  | JList items => negb (Nat.eqb (length items) 0)
  | JDict entries => negb (Nat.eqb (length entries) 0)
  end.

Fixpoint json_dict_get (key : string) (entries : list (string * json))
  : option json :=
  match entries with
  | [] => None
  | (k, v) :: rest => if String.eqb k key then Some v else json_dict_get key rest
  end.

(** [j.get(key)]: only a dictionary has the method; a key that is not there
    gives [None], as a [null] value does. *)
Definition py_get (key : string) (j : json) : outcome json :=
  match j with
  | JDict entries => Return (default JNull (json_dict_get key entries))
  | _ => Raise AttributeError
  end.

(** [len(j)] *)
Definition py_len (j : json) : outcome nat :=
  match j with
  | JStr s => Return (String.length s)
  | JList items => Return (length items)
  | JDict entries => Return (length entries)
  | JNull | JBool _ | JInt _ => Raise TypeError
  end.

(** [j[key]] for a text key *)
Definition py_subscript (key : string) (j : json) : outcome json :=
  match j with
  | JDict entries =>
      match json_dict_get key entries with
      | Some v => Return v
      | None => Raise (KeyError key)
      end
  | _ => Raise TypeError
  end.

(** [j[0]]: a dictionary read from JSON has no key [0]. *)
Definition py_first (j : json) : media_outcome :=
  match j with
  | JList (x :: _) => MediaReturn x
  | JStr (String c _) => MediaReturn (JStr (String c ""))
  | JList [] | JStr EmptyString => MediaRaise IndexError
  | JDict _ => MediaRaise (Builtin (KeyError "0"))
  | JNull | JBool _ | JInt _ => MediaRaise (Builtin TypeError)
  end.

Section MediaInfo.

Context {probe : Probe}.

(** The command of [get_media_info]. *)
Definition media_cmd (d : Dailies) (path : string) : list string :=
  [_ffprobe d; "-v"; "quiet"; "-select_streams"; "v"; "-show_streams";
   "-print_format"; "json"; path].

(** [output['streams'][0]] *)
Definition first_stream (output : json) : media_outcome :=
  match py_subscript "streams" output with
  | Return streams => py_first streams
  | Raise e => MediaRaise (Builtin e)
  end.

(** [Dailies.get_media_info]: both handlers re-raise what they caught. *)
Definition get_media_info (d : Dailies) (path : string) : media_outcome :=
  match sp_check_output (media_cmd d path) with
  | inl e => MediaRaise (ToolFailed e)
  | inr result =>
      match json_loads result with
      | None => MediaRaise ValueError
      | Some output =>
          if negb (truthy output) then MediaReturn (JDict [])
          else
            match py_get "streams" output with
            | Raise e => MediaRaise (Builtin e)
            | Return streams =>
                match py_len streams with
                | Raise e => MediaRaise (Builtin e)
                | Return n =>
                    if Nat.eqb n 1 then first_stream output
                    else if Nat.ltb 1 n then first_stream output
                    else MediaReturn (JDict [])
                end
            end
      end
  end.

End MediaInfo.

(** ** More hosts *)

(** The sample host with no directory and no file on it. *)
Definition empty_disk_host : Host :=
  {| script_dir := "/opt/dailies";
     yaml_config := Posix.sample_config;
     sys_platform := "linux2";
     os_environ := {[ "TMPDIR" := "/tmp" ]};
     os_path_exists := fun _ => false;
     os_path_abspath := fun p => p;
     os_path_join := Posix.join;
     os_path_split := Posix.split;
     getpass_getuser := "artist";
     findSequenceOnDisk := fun _ => Some (1001, 1050) |}.

(** The sample host on which no sequence is found. *)
Definition no_sequence_host : Host :=
  {| script_dir := "/opt/dailies";
     yaml_config := Posix.sample_config;
     sys_platform := "linux2";
     os_environ := {[ "TMPDIR" := "/tmp" ]};
     os_path_exists := fun _ => true;
     os_path_abspath := fun p => p;
     os_path_join := Posix.join;
     os_path_split := Posix.split;
     getpass_getuser := "artist";
     findSequenceOnDisk := fun _ => None |}.

Definition video_stream : json :=
  JDict [("index", JInt 0); ("codec_name", JStr "h264"); ("width", JInt 1920);
         ("height", JInt 1080)].

Definition second_stream : json :=
  JDict [("index", JInt 1); ("codec_name", JStr "mjpeg")].

(** A probe whose output reads as two video streams. *)
Definition two_stream_probe : Probe :=
  {| sp_check_output := fun _ => inr "streams: h264, mjpeg";
     json_loads := fun _ =>
       Some (JDict [("streams", JList [video_stream; second_stream])]) |}.

(** A probe whose output reads as a dictionary without the key [streams]. *)
Definition format_only_probe : Probe :=
  {| sp_check_output := fun _ => inr "format: mov";
     json_loads := fun _ => Some (JDict [("format", JStr "mov")]) |}.

(** A probe whose output reads as an empty list of streams. *)
Definition no_stream_probe : Probe :=
  {| sp_check_output := fun _ => inr "streams: none";
     json_loads := fun _ => Some (JDict [("streams", JList [])]) |}.

(** The sample host run under a platform the module does not know. *)
Definition freebsd_host : Host :=
  {| script_dir := "/opt/dailies";
     yaml_config := Posix.sample_config;
     sys_platform := "freebsd13";
     os_environ := {[ "TMPDIR" := "/tmp" ]};
     os_path_exists := fun _ => true;
     os_path_abspath := fun p => p;
     os_path_join := Posix.join;
     os_path_split := Posix.split;
     getpass_getuser := "artist";
     findSequenceOnDisk := fun _ => Some (1001, 1050) |}.

(** * Properties *)

(** ** The string operations on examples *)

Example of_Z_1001 : PyStr.of_Z 1001 = "1001".
Proof. reflexivity. Qed.

Example of_Z_neg : PyStr.of_Z (-5) = "-5".
Proof. reflexivity. Qed.

Example of_Z_zero : PyStr.of_Z 0 = "0".
Proof. reflexivity. Qed.

Example replace_frame_number :
  PyStr.replace "@frame_number" "%{n}" "text=@frame_number \[1-2\]: x"
  = "text=%{n} \[1-2\]: x".
Proof. reflexivity. Qed.

Example split_spaces :
  PyStr.split " " "-vcodec  libx264 -r 24" = ["-vcodec"; ""; "libx264"; "-r"; "24"].
Proof. reflexivity. Qed.

Example sub_frame_token_ex :
  PyStr.sub_frame_token "/shots/sh010.%04d.exr" = "/shots/sh010.#.exr".
Proof. reflexivity. Qed.

Example sub_frame_token_failed_candidate :
  PyStr.sub_frame_token "a%12%3d%d%5" = "a%12#%d%5".
Proof. reflexivity. Qed.

Example posix_split_ex :
  Posix.split "/shots/sh010/sh010.%04d.exr" = ("/shots/sh010", "sh010.%04d.exr").
Proof. reflexivity. Qed.

Example posix_join_ex : Posix.join "/tmp" "tmp_slate.png" = "/tmp/tmp_slate.png".
Proof. reflexivity. Qed.

Example windows_split_ex :
  Windows.split "C:\shots\sh010\sh010.%04d.exr"
  = ("C:\shots\sh010", "sh010.%04d.exr").
Proof. reflexivity. Qed.

(** The shortened user name is replaced and the path comes back with forward
    slashes. *)
Example windows_tmp_dir :
  (@_get_tmp_dir Windows.sample_host Windows.sample_state).1
  = Return (Some "C:/Users/evileye_52/AppData/Local/Temp").
Proof. reflexivity. Qed.

Example windows_tmp_file :
  (@_get_tmp_file Windows.sample_host "tmp_slate.png" Windows.sample_state).1
  = Return "C:/Users/evileye_52/AppData/Local/Temp\tmp_slate.png".
Proof. reflexivity. Qed.

(** ** Facts about the string operations *)

Lemma of_Z_not_i (n : Z) : String.eqb (PyStr.of_Z n) "-i" = false.
Proof.
  unfold PyStr.of_Z.
  destruct n as [|p|p]; simpl; [reflexivity| |];
    destruct (Pos.to_uint p); reflexivity.
Qed.

Lemma of_Z_not_f (n : Z) : String.eqb (PyStr.of_Z n) "-f" = false.
Proof.
  unfold PyStr.of_Z.
  destruct n as [|p|p]; simpl; [reflexivity| |];
    destruct (Pos.to_uint p); reflexivity.
Qed.

Lemma replace_from_absent (old new s : string) :
  PyStr.contains old s = false -> PyStr.replace_from O old new s = s.
Proof.
  induction s as [|c s IH]; [reflexivity|].
  intros H. cbn [PyStr.contains] in H.
  apply orb_false_elim in H as [Hp Hc].
  cbn [PyStr.replace_from]. rewrite Hp. f_equal. exact (IH Hc).
Qed.

Lemma append_assoc (a b c : string) : (a +:+ b) +:+ c = a +:+ (b +:+ c).
Proof.
  induction a as [|x a IH]; [reflexivity|].
  change (String x ((a +:+ b) +:+ c) = String x (a +:+ (b +:+ c))).
  now rewrite IH.
Qed.

Lemma append_empty_r (a : string) : a +:+ "" = a.
Proof.
  induction a as [|x a IH]; [reflexivity|].
  change (String x (a +:+ "") = String x a).
  now rewrite IH.
Qed.

Lemma cat_onto_denote (t : cat_tree) (acc : string) :
  cat_onto t acc = cat_denote t +:+ acc.
Proof.
  revert acc. induction t as [s|a IHa b IHb]; intros acc; [reflexivity|].
  cbn [cat_onto cat_denote]. rewrite IHa, IHb. symmetry. apply append_assoc.
Qed.

Lemma cat_denote_flat (t : cat_tree) : cat_denote t = cat_onto t "".
Proof. rewrite cat_onto_denote. symmetry. apply append_empty_r. Qed.

Ltac cat_reify t :=
  lazymatch t with
  | String.append ?a ?b =>
      let ra := cat_reify a in
      let rb := cat_reify b in
      constr:(Cat ra rb)
  | _ => constr:(Leaf t)
  end.

(** Proves an equation between two concatenations of the same pieces. *)
Ltac append_normalise :=
  lazymatch goal with
  | |- ?l = ?r =>
      let tl := cat_reify l in
      let tr := cat_reify r in
      change (cat_denote tl = cat_denote tr);
      rewrite (cat_denote_flat tl), (cat_denote_flat tr);
      reflexivity
  end.

Lemma concat_app (l1 l2 : list string) :
  PyStr.concat (l1 ++ l2) = PyStr.concat l1 +:+ PyStr.concat l2.
Proof.
  unfold PyStr.concat.
  induction l1 as [|x l1 IH]; [reflexivity|].
  cbn [app foldr]. rewrite IH. symmetry. apply append_assoc.
Qed.

(** ** What the methods do to the state *)

Section Properties.

Context {host : Host}.

(** Unfolds the monad in the goal and in the hypotheses. *)
Ltac unfold_monad :=
  unfold bind, ret, raise, get_self, modify_self, sp_call in *.

Lemma _get_tmp_dir_pure (st : state) : _get_tmp_dir st = (tmp_dir_outcome, st).
Proof.
  unfold tmp_dir_outcome, _get_tmp_dir. unfold_monad.
  repeat case_match; reflexivity.
Qed.

Lemma _get_tmp_file_inv (name path : string) (st st' : state) :
  _get_tmp_file name st = (Return path, st') ->
  exists dir,
    tmp_dir_outcome = Return (Some dir) /\ os_path_exists dir = true /\
    path = os_path_join dir name /\ st' = register_tmp path st.
Proof.
  unfold _get_tmp_file. unfold_monad. rewrite _get_tmp_dir_pure.
  destruct tmp_dir_outcome as [[dir|]|e]; try discriminate.
  destruct (os_path_exists dir) eqn:Hex; try discriminate.
  intros [= <- <-]. exists dir. repeat split; assumption.
Qed.

Lemma _get_tmp_file_returns (name dir : string) (st : state) :
  tmp_dir_outcome = Return (Some dir) -> os_path_exists dir = true ->
  _get_tmp_file name st
  = (Return (os_path_join dir name), register_tmp (os_path_join dir name) st).
Proof.
  intros Hd Hex. unfold _get_tmp_file. unfold_monad.
  rewrite _get_tmp_dir_pure, Hd, Hex. reflexivity.
Qed.

Lemma _get_tmp_file_calls (name : string) (st st' : state) (o : outcome string) :
  _get_tmp_file name st = (o, st') -> sp_calls st' = sp_calls st.
Proof.
  unfold _get_tmp_file. unfold_monad. rewrite _get_tmp_dir_pure.
  destruct tmp_dir_outcome as [[dir|]|e]; [|intros [= <- <-]; reflexivity..].
  destruct (os_path_exists dir); intros [= <- <-]; reflexivity.
Qed.

(** A run of [make_slate] that returns: the path is registered, one command
    is executed, and its last argument is the path returned. *)
Lemma make_slate_inv (src_seq output : string) (st st' : state) :
  make_slate src_seq st = (Return output, st') ->
  exists dir seq,
    tmp_dir_outcome = Return (Some dir) /\ os_path_exists dir = true /\
    output = os_path_join dir "tmp_slate.png" /\
    findSequenceOnDisk (PyStr.sub_frame_token src_seq) = Some seq /\
    first_missing SLATE_KWARGS (fields_data (self st)) = None /\
    st' = {| self := self (register_tmp output st);
             sp_calls := sp_calls st ++
               [slate_command (self (register_tmp output st)) seq src_seq output] |}.
Proof.
  unfold make_slate, bind at 1.
  destruct (_get_tmp_file "tmp_slate.png" st) as [[path|e] st1] eqn:Htmp;
    [|discriminate].
  apply _get_tmp_file_inv in Htmp as (dir & Hd & Hex & -> & ->).
  unfold _get_seq, slate_kwargs. unfold_monad.
  destruct (findSequenceOnDisk _) as [seq|] eqn:Hseq; [|discriminate].
  cbn [self register_tmp fields_data set_tmp_files].
  destruct (first_missing _ _) eqn:Hfm; [discriminate|].
  intros [= <- <-]. exists dir, seq. repeat split; try assumption; reflexivity.
Qed.

Lemma make_slate_returns (src_seq dir : string) (seq : Z * Z) (st : state) :
  tmp_dir_outcome = Return (Some dir) -> os_path_exists dir = true ->
  findSequenceOnDisk (PyStr.sub_frame_token src_seq) = Some seq ->
  first_missing SLATE_KWARGS (fields_data (self st)) = None ->
  let output := os_path_join dir "tmp_slate.png" in
  make_slate src_seq st
  = (Return output,
     {| self := self (register_tmp output st);
        sp_calls := sp_calls st ++
          [slate_command (self (register_tmp output st)) seq src_seq output] |}).
Proof.
  intros Hd Hex Hseq Hfm output. unfold make_slate, bind at 1.
  rewrite (_get_tmp_file_returns _ dir) by assumption.
  unfold _get_seq, slate_kwargs. unfold_monad. rewrite Hseq.
  cbn [self register_tmp fields_data set_tmp_files]. rewrite Hfm.
  reflexivity.
Qed.

Lemma slate_command_last (d : Dailies) (seq : Z * Z) (src_seq output : string) :
  last (slate_command d seq src_seq output) = Some output.
Proof. reflexivity. Qed.

(** A run of [make_mov] that returns. *)
Lemma make_mov_inv (src_seq out_mov preset : string) (burnin slate : bool)
    (r : string) (st st' : state) :
  make_mov src_seq out_mov preset burnin slate st = (Return r, st') ->
  exists seq st1 first_input,
    findSequenceOnDisk (PyStr.sub_frame_token src_seq) = Some seq /\
    (if slate
     then exists slate_path,
            make_slate src_seq st = (Return slate_path, st1) /\
            first_input = ["-i"; slate_path]
     else st1 = st /\ first_input = NULL_INPUT) /\
    r = out_mov /\
    st' = {| self := self st1;
             sp_calls := sp_calls st1 ++
               [mov_command (self st) seq src_seq out_mov preset burnin slate
                  first_input] |}.
Proof.
  unfold make_mov, _get_seq. unfold bind at 1 2. unfold get_self at 1.
  destruct (findSequenceOnDisk _) as [seq|] eqn:Hseq;
    [|unfold raise; discriminate].
  unfold ret at 1. destruct slate.
  - unfold bind at 1 2.
    destruct (make_slate src_seq st) as [[slate_path|e] st1] eqn:Hslate;
      [|discriminate].
    unfold_monad. intros [= <- <-].
    exists seq, st1, ["-i"; slate_path]. repeat split; eauto.
  - unfold_monad. intros [= <- <-].
    exists seq, st, NULL_INPUT. repeat split; eauto.
Qed.

(** With the slate branch taken, the two commands of a run and their inputs. *)
Lemma mov_command_slate_inputs (d : Dailies) (seq : Z * Z)
    (src_seq out_mov preset slate_path : string) (burnin : bool) :
  take 2 (ffmpeg_inputs
            (mov_command d seq src_seq out_mov preset burnin true
               ["-i"; slate_path]))
  = [(None, slate_path); (None, src_seq)].
Proof.
  unfold mov_command, debug_pops, ffmpeg_inputs.
  cbn [debug app delete list_delete tail inputs_from String.eqb Ascii.eqb
       Bool.eqb].
  rewrite of_Z_not_i, of_Z_not_f. reflexivity.
Qed.

Lemma mov_command_null_inputs (d : Dailies) (seq : Z * Z)
    (src_seq out_mov preset : string) (burnin : bool) :
  take 2 (ffmpeg_inputs
            (mov_command d seq src_seq out_mov preset burnin false NULL_INPUT))
  = [(Some "lavfi", "nullsrc=s=256x256:d=5"); (None, src_seq)].
Proof.
  unfold mov_command, debug_pops, ffmpeg_inputs, NULL_INPUT.
  cbn [debug app delete list_delete tail inputs_from String.eqb Ascii.eqb
       Bool.eqb].
  rewrite of_Z_not_i, of_Z_not_f. reflexivity.
Qed.

(** C1. A call [make_mov(src, out, preset, burnin=True, slate=True)] that
    runs to its end executes two commands, the slate render and the movie
    render.  In the movie command, whatever the preset, the first [-i]
    argument (stream 0) is the slate image, that is the output path the slate
    render was given as its last argument, and the second [-i] argument
    (stream 1) is the source sequence. *)
Theorem make_mov_slate_input_order (src_seq out_mov preset r : string)
    (st st' : state) :
  make_mov src_seq out_mov preset true true st = (Return r, st') ->
  exists slate_render mov_render slate_path,
    sp_calls st' = sp_calls st ++ [slate_render; mov_render] /\
    last slate_render = Some slate_path /\
    ffmpeg_inputs mov_render !! 0%nat = Some (None, slate_path) /\
    ffmpeg_inputs mov_render !! 1%nat = Some (None, src_seq).
Proof.
  intros Hrun.
  apply make_mov_inv in Hrun
    as (seq & st1 & first_input & Hseq & (slate_path & Hslate & ->) & -> & ->).
  apply make_slate_inv in Hslate
    as (dir & seq' & _ & _ & Hpath & _ & _ & ->).
  pose proof (mov_command_slate_inputs (self st) seq src_seq out_mov preset
                slate_path true) as Hin.
  eexists _, _, slate_path. cbn [sp_calls self].
  split; [rewrite <- app_assoc; reflexivity|].
  split; [apply slate_command_last|].
  split.
  - rewrite <- (lookup_take_lt _ 2 0) by lia. rewrite Hin. reflexivity.
  - rewrite <- (lookup_take_lt _ 2 1) by lia. rewrite Hin. reflexivity.
Qed.

(** C2. A call [make_mov(..., slate=False)] that runs to its end executes one
    command whose stream 0 is the generated source [nullsrc=s=256x256:d=5],
    read with [-f lavfi], whatever the source sequence is called; the source
    sequence is stream 1, as it is when a slate is asked for. *)
Theorem make_mov_no_slate_null_source (src_seq out_mov preset r : string)
    (burnin : bool) (st st' : state) :
  make_mov src_seq out_mov preset burnin false st = (Return r, st') ->
  exists mov_render,
    sp_calls st' = sp_calls st ++ [mov_render] /\
    ffmpeg_inputs mov_render !! 0%nat
      = Some (Some "lavfi", "nullsrc=s=256x256:d=5") /\
    ffmpeg_inputs mov_render !! 1%nat = Some (None, src_seq).
Proof.
  intros Hrun.
  apply make_mov_inv in Hrun
    as (seq & st1 & first_input & Hseq & (-> & ->) & -> & ->).
  pose proof (mov_command_null_inputs (self st) seq src_seq out_mov preset
                burnin) as Hin.
  eexists. cbn [sp_calls self]. split; [reflexivity|]. split.
  - rewrite <- (lookup_take_lt _ 2 0) by lia. rewrite Hin. reflexivity.
  - rewrite <- (lookup_take_lt _ 2 1) by lia. rewrite Hin. reflexivity.
Qed.

(** C8. On a platform whose temporary-directory variable ([TMPDIR] on mac and
    linux, [TEMP] on windows) is not in the environment, [_get_tmp_file]
    fails: [os.path.abspath(None)] raises, the exception (Python's
    [TypeError]) leaves the method, and no path is registered. *)
Theorem _get_tmp_file_env_unset (name var : string) (st : state) :
  required_env_var = Some var ->
  os_environ !! var = None ->
  _get_tmp_file name st = (Raise TypeError, st).
Proof.
  unfold required_env_var, _get_tmp_file, _get_tmp_dir. unfold_monad.
  intros Hvar Henv.
  destruct (String.eqb sys_platform "darwin" || _).
  - injection Hvar as <-. rewrite Henv. reflexivity.
  - destruct (String.eqb sys_platform "win32"); [|discriminate].
    injection Hvar as <-. rewrite Henv. reflexivity.
Qed.

(** *** [fields_from_dict] *)

(** The loop never executes a command, however it ends. *)
Lemma fields_loop_calls (fields_dict : gmap string pyval)
    (items : list (string * pyval)) (st st' : state) (o : outcome unit) :
  fields_loop items fields_dict st = (o, st') -> sp_calls st' = sp_calls st.
Proof.
  revert st. induction items as [|[k old] items IH]; intros st.
  - intros [= <- <-]. reflexivity.
  - cbn [fields_loop]. destruct (fields_dict !! k).
    + unfold bind at 1, modify_self at 1. intros H. apply IH in H. exact H.
    + intros [= <- <-]. reflexivity.
Qed.

(** With a key of the loop missing from the mapping, the loop raises
    [KeyError] for a key that is missing. *)
Lemma fields_loop_missing (fields_dict : gmap string pyval)
    (items : list (string * pyval)) (st : state) :
  (exists k, k ∈ items.*1 /\ fields_dict !! k = None) ->
  exists k st',
    k ∈ items.*1 /\ fields_dict !! k = None /\
    fields_loop items fields_dict st = (Raise (KeyError k), st').
Proof.
  revert st. induction items as [|[k old] items IH]; intros st (k0 & Hin & Hk0).
  - inversion Hin.
  - cbn [fields_loop]. destruct (fields_dict !! k) as [v|] eqn:Hk.
    + assert (k0 ∈ items.*1) as Hin'.
      { cbn in Hin. apply elem_of_cons in Hin as [->|Hin]; [congruence|done]. }
      unfold bind at 1, modify_self at 1.
      destruct (IH {| self := set_fields_data (dict_set k v (fields_data (self st)))
                                (self st);
                      sp_calls := sp_calls st |}
                   (ex_intro _ k0 (conj Hin' Hk0)))
        as (k1 & st' & Hin1 & Hk1 & Hrun).
      exists k1, st'. split; [cbn; apply elem_of_cons; by right|]. done.
    + exists k, st. split; [cbn; apply elem_of_cons; by left|]. done.
Qed.

(** C3. When the mapping handed over lacks one of the 13 field keys,
    populating the fields and building the slate fails: [fields_from_dict]
    raises (Python's [KeyError], naming a key that is missing), [make_slate]
    is not reached, and no command has been executed when the exception
    leaves. *)
Theorem missing_key_fails_before_invocation (fields_dict : gmap string pyval)
    (src_seq : string) (st : state) :
  (fields_data (self st)).*1 = FIELD_KEYS ->
  (exists k, k ∈ FIELD_KEYS /\ fields_dict !! k = None) ->
  exists k st',
    k ∈ FIELD_KEYS /\ fields_dict !! k = None /\
    (fields_from_dict fields_dict ;;; make_slate src_seq) st
      = (Raise (KeyError k), st') /\
    sp_calls st' = sp_calls st.
Proof.
  intros Hkeys Hmiss. rewrite <- Hkeys in Hmiss.
  destruct (fields_loop_missing fields_dict (fields_data (self st)) st Hmiss)
    as (k & st' & Hin & Hk & Hrun).
  exists k, st'. rewrite <- Hkeys. repeat split; try assumption.
  - unfold bind at 1, fields_from_dict, bind at 1, get_self at 1.
    rewrite Hrun. reflexivity.
  - exact (fields_loop_calls _ _ _ _ _ Hrun).
Qed.

(** [make_slate] executes its command as its last step: a run that raises
    has executed nothing. *)
Lemma make_slate_raise_calls (src_seq : string) (e : exn) (st st' : state) :
  make_slate src_seq st = (Raise e, st') -> sp_calls st' = sp_calls st.
Proof.
  unfold make_slate, bind at 1.
  destruct (_get_tmp_file "tmp_slate.png" st) as [[path|e0] st1] eqn:Htmp.
  - apply _get_tmp_file_calls in Htmp.
    unfold _get_seq, slate_kwargs. unfold_monad.
    destruct (findSequenceOnDisk _); [|intros [= <- <-]; exact Htmp].
    destruct (first_missing _ _); [intros [= <- <-]; exact Htmp|discriminate].
  - apply _get_tmp_file_calls in Htmp. intros [= <- <-]. exact Htmp.
Qed.

(** An instance whose [fields_data] lacks a key the template reads makes
    [make_slate] raise, with [KeyError] once the temporary path and the
    sequence are there, and before any command is executed. *)
Lemma make_slate_missing_field_fails (src_seq k : string) (st : state) :
  first_missing SLATE_KWARGS (fields_data (self st)) = Some k ->
  exists e st',
    make_slate src_seq st = (Raise e, st') /\ sp_calls st' = sp_calls st /\
    (forall dir seq,
       tmp_dir_outcome = Return (Some dir) -> os_path_exists dir = true ->
       findSequenceOnDisk (PyStr.sub_frame_token src_seq) = Some seq ->
       e = KeyError k).
Proof.
  intros Hfm.
  destruct (make_slate src_seq st) as [[output|e] st'] eqn:Hrun.
  - apply make_slate_inv in Hrun as (? & ? & _ & _ & _ & _ & Hnone & _).
    congruence.
  - exists e, st'. split; [reflexivity|].
    split; [exact (make_slate_raise_calls _ _ _ _ Hrun)|].
    intros dir seq Hd Hex Hseq. revert Hrun.
    unfold make_slate, bind at 1.
    rewrite (_get_tmp_file_returns _ dir) by assumption.
    unfold _get_seq, slate_kwargs. unfold_monad. rewrite Hseq.
    cbn [self register_tmp fields_data set_tmp_files]. rewrite Hfm.
    intros [= <- <-]. reflexivity.
Qed.

Lemma FIELD_KEYS_NoDup : NoDup FIELD_KEYS.
Proof. apply (bool_decide_unpack _). vm_compute. reflexivity. Qed.

Lemma dict_set_app_fresh (k : string) (v old : pyval)
    (done rest : list (string * pyval)) :
  k ∉ done.*1 ->
  dict_set k v (done ++ (k, old) :: rest) = done ++ (k, v) :: rest.
Proof.
  induction done as [|[k' v'] done IH]; intros Hfresh.
  - cbn. rewrite String.eqb_refl. reflexivity.
  - cbn in Hfresh. apply not_elem_of_cons in Hfresh as [Hne Hfresh].
    cbn. destruct (String.eqb_spec k' k) as [->|_]; [done|].
    rewrite IH by assumption. reflexivity.
Qed.

Lemma fields_loop_ok (fields_dict : gmap string pyval)
    (items done : list (string * pyval)) (st : state) :
  NoDup ((done ++ items).*1) ->
  fields_data (self st) = done ++ items ->
  (forall k, k ∈ items.*1 -> is_Some (fields_dict !! k)) ->
  fields_loop items fields_dict st
  = (Return tt,
     {| self :=
          set_fields_data
            (done ++ ((fun kv => (kv.1, default PyNone (fields_dict !! kv.1)))
                        <$> items))
            (self st);
        sp_calls := sp_calls st |}).
Proof.
  revert done st. induction items as [|[k old] items IH]; intros done st Hnd Hfd Hall.
  - cbn. rewrite app_nil_r in *. rewrite <- Hfd.
    destruct st as [[] ?]. reflexivity.
  - cbn [fields_loop].
    destruct (Hall k) as [v Hv]; [cbn; apply elem_of_cons; by left|].
    rewrite Hv. unfold bind at 1, modify_self at 1.
    rewrite fmap_app, fmap_cons in Hnd.
    assert (k ∉ done.*1) as Hfresh.
    { apply NoDup_app in Hnd as (_ & Hdisj & _). intros Hin.
      apply (Hdisj k Hin). apply elem_of_cons. by left. }
    rewrite Hfd, dict_set_app_fresh by assumption.
    rewrite (IH (done ++ [(k, v)])).
    + cbn [self sp_calls fmap list_fmap fst]. rewrite Hv.
      rewrite <- app_assoc. reflexivity.
    + rewrite <- app_assoc. cbn [app]. rewrite fmap_app, fmap_cons. exact Hnd.
    + cbn [self fields_data set_fields_data]. rewrite <- app_assoc. reflexivity.
    + intros k' Hin. apply Hall. cbn. apply elem_of_cons. by right.
Qed.

(** C10. With every one of the 13 keys in the mapping, [fields_from_dict]
    returns, stores under each key the mapping's value for it, and changes
    nothing else; a second mapping that agrees with the first on the 13 keys
    leaves the very same state, so entries under other keys change neither the
    stored fields nor anything run afterwards. *)
Theorem fields_from_dict_frame (fields_dict : gmap string pyval) (st : state) :
  (fields_data (self st)).*1 = FIELD_KEYS ->
  (forall k, k ∈ FIELD_KEYS -> is_Some (fields_dict !! k)) ->
  let st' := {| self := set_fields_data (fields_of_dict fields_dict) (self st);
                sp_calls := sp_calls st |} in
  fields_from_dict fields_dict st = (Return tt, st') /\
  (forall k v, fields_dict !! k = Some v -> k ∈ FIELD_KEYS ->
     dict_get k (fields_data (self st')) = Some v) /\
  (forall other : gmap string pyval,
     (forall k, k ∈ FIELD_KEYS -> other !! k = fields_dict !! k) ->
     fields_from_dict other st = (Return tt, st')).
Proof.
  intros Hkeys Hall st'.
  assert (forall m : gmap string pyval,
            (forall k, k ∈ FIELD_KEYS -> is_Some (m !! k)) ->
            fields_from_dict m st
            = (Return tt,
               {| self := set_fields_data (fields_of_dict m) (self st);
                  sp_calls := sp_calls st |})) as Hrun.
  { intros m Hm. unfold fields_from_dict, bind at 1, get_self at 1.
    rewrite (fields_loop_ok m (fields_data (self st)) [] st).
    - cbn [app]. unfold fields_of_dict. rewrite <- Hkeys.
      rewrite <- list_fmap_compose. reflexivity.
    - cbn [app]. rewrite Hkeys. exact FIELD_KEYS_NoDup.
    - reflexivity.
    - rewrite Hkeys. exact Hm. }
  split; [exact (Hrun fields_dict Hall)|]. split.
  - intros k v Hv Hin. subst st'. cbn [self fields_data set_fields_data].
    unfold fields_of_dict, FIELD_KEYS in *.
    repeat (apply elem_of_cons in Hin as [->|Hin];
            [cbn; rewrite Hv; reflexivity|]).
    inversion Hin.
  - intros other Hagree. rewrite Hrun.
    + subst st'. do 3 f_equal. unfold fields_of_dict.
      apply list_fmap_ext. intros i k Hk. rewrite Hagree; [reflexivity|].
      apply list_elem_of_lookup. eauto.
    + intros k Hk. rewrite Hagree by assumption. apply Hall, Hk.
Qed.

(** *** Idempotence of the slate command *)

Lemma slate_command_tmp_files (tf : list string) (d : Dailies) (seq : Z * Z)
    (src_seq output : string) :
  slate_command (set_tmp_files tf d) seq src_seq output
  = slate_command d seq src_seq output.
Proof. reflexivity. Qed.

(** C6. When a call of [make_slate] returns, calling it again with the same
    sequence, on the fields it left as they were, returns the same path and
    executes the same argument vector, graph and output path included. *)
Theorem make_slate_twice_same_command (src_seq output : string)
    (st st1 : state) :
  make_slate src_seq st = (Return output, st1) ->
  exists cmd st2,
    sp_calls st1 = sp_calls st ++ [cmd] /\
    make_slate src_seq st1 = (Return output, st2) /\
    sp_calls st2 = sp_calls st1 ++ [cmd].
Proof.
  intros Hrun.
  apply make_slate_inv in Hrun as (dir & seq & Hd & Hex & -> & Hseq & Hfm & ->).
  eexists _, _. split; [reflexivity|]. split.
  - apply (make_slate_returns src_seq dir seq); assumption.
  - cbn [sp_calls self register_tmp]. rewrite !slate_command_tmp_files.
    reflexivity.
Qed.

(** The command depends on the instance through its attributes and its
    fields only, not through the registry of temporary files. *)
Lemma slate_command_determined (d d' : Dailies) (seq : Z * Z)
    (src_seq output : string) :
  same_attributes d d' -> fields_data d = fields_data d' ->
  slate_command d seq src_seq output = slate_command d' seq src_seq output.
Proof.
  intros Hattr Hfields.
  change (slate_command
            (set_fields_data (fields_data d)
               (set_fields_data [] (set_tmp_files [] d))) seq src_seq output
          = slate_command
              (set_fields_data (fields_data d')
                 (set_fields_data [] (set_tmp_files [] d'))) seq src_seq output).
  unfold same_attributes in Hattr. rewrite Hattr, Hfields. reflexivity.
Qed.

(** Two instances with the same attributes and the same fields, whatever
    they ran before: where one returns from [make_slate], so does the other,
    with the same path and the same command. *)
Lemma make_slate_determined (src_seq output : string) (a a' b : state) :
  same_attributes (self a) (self b) ->
  fields_data (self a) = fields_data (self b) ->
  make_slate src_seq a = (Return output, a') ->
  exists b',
    make_slate src_seq b = (Return output, b') /\
    last (sp_calls b') = last (sp_calls a').
Proof.
  intros Hattr Hfields Hrun.
  apply make_slate_inv in Hrun as (dir & seq & Hd & Hex & -> & Hseq & Hfm & ->).
  eexists. split.
  - apply (make_slate_returns src_seq dir seq); [assumption..|].
    rewrite <- Hfields. exact Hfm.
  - cbn [sp_calls self register_tmp]. rewrite !last_snoc.
    rewrite !slate_command_tmp_files. f_equal.
    symmetry. apply slate_command_determined; assumption.
Qed.

(** *** The attributes no method writes *)

Lemma from_init_Dailies_init : from_init Dailies_init.
Proof. reflexivity. Qed.

Lemma fields_loop_attributes (fields_dict : gmap string pyval)
    (items : list (string * pyval)) (st st' : state) (o : outcome unit) :
  fields_loop items fields_dict st = (o, st') ->
  same_attributes (self st') (self st).
Proof.
  revert st. induction items as [|[k old] items IH]; intros st.
  - intros [= <- <-]. reflexivity.
  - cbn [fields_loop]. destruct (fields_dict !! k).
    + unfold bind at 1, modify_self at 1. intros H. apply IH in H.
      exact H.
    + intros [= <- <-]. reflexivity.
Qed.

Lemma fields_from_dict_attributes (fields_dict : gmap string pyval)
    (st st' : state) (o : outcome unit) :
  fields_from_dict fields_dict st = (o, st') ->
  same_attributes (self st') (self st).
Proof. apply fields_loop_attributes. Qed.

Lemma _get_tmp_file_attributes (name : string) (st st' : state)
    (o : outcome string) :
  _get_tmp_file name st = (o, st') -> same_attributes (self st') (self st).
Proof.
  unfold _get_tmp_file. unfold_monad. rewrite _get_tmp_dir_pure.
  destruct tmp_dir_outcome as [[dir|]|e]; [|intros [= <- <-]; reflexivity..].
  destruct (os_path_exists dir); intros [= <- <-]; reflexivity.
Qed.

Lemma make_slate_attributes (src_seq : string) (st st' : state)
    (o : outcome string) :
  make_slate src_seq st = (o, st') -> same_attributes (self st') (self st).
Proof.
  unfold make_slate, bind at 1.
  destruct (_get_tmp_file "tmp_slate.png" st) as [[path|e0] st1] eqn:Htmp;
    apply _get_tmp_file_attributes in Htmp;
    [|intros [= <- <-]; exact Htmp].
  unfold _get_seq, slate_kwargs. unfold_monad.
  destruct (findSequenceOnDisk _); [|intros [= <- <-]; exact Htmp].
  destruct (first_missing _ _); intros [= <- <-]; exact Htmp.
Qed.

Lemma make_mov_attributes (src_seq out_mov preset : string)
    (burnin slate : bool) (st st' : state) (o : outcome string) :
  make_mov src_seq out_mov preset burnin slate st = (o, st') ->
  same_attributes (self st') (self st).
Proof.
  unfold make_mov, _get_seq. unfold bind at 1 2. unfold get_self at 1.
  destruct (findSequenceOnDisk _); [|intros [= <- <-]; reflexivity].
  unfold ret at 1. destruct slate.
  - unfold bind at 1 2.
    destruct (make_slate src_seq st) as [[slate_path|e] st1] eqn:Hslate;
      apply make_slate_attributes in Hslate; unfold_monad;
      intros [= <- <-]; exact Hslate.
  - unfold_monad. intros [= <- <-]. reflexivity.
Qed.

Lemma from_init_canvas (d : Dailies) :
  from_init d -> new_x d = "1920" /\ new_y d = "1080".
Proof.
  intros H. split.
  - exact (f_equal new_x H).
  - exact (f_equal new_y H).
Qed.

(** *** The movie command *)

(** The run of [make_mov] once the sequence is found and, where a slate is
    asked for, [make_slate] returns. *)
Lemma make_mov_returns (src_seq out_mov preset : string) (burnin slate : bool)
    (seq : Z * Z) (first_input : list string) (st st1 : state) :
  findSequenceOnDisk (PyStr.sub_frame_token src_seq) = Some seq ->
  (if slate
   then exists slate_path,
          make_slate src_seq st = (Return slate_path, st1) /\
          first_input = ["-i"; slate_path]
   else st1 = st /\ first_input = NULL_INPUT) ->
  make_mov src_seq out_mov preset burnin slate st
  = (Return out_mov,
     {| self := self st1;
        sp_calls := sp_calls st1 ++
          [mov_command (self st) seq src_seq out_mov preset burnin slate
             first_input] |}).
Proof.
  intros Hseq Hfirst.
  unfold make_mov, _get_seq. unfold bind at 1 2. unfold get_self at 1.
  rewrite Hseq. unfold ret at 1. destruct slate.
  - destruct Hfirst as (slate_path & Hslate & ->).
    unfold bind at 1 2. rewrite Hslate. reflexivity.
  - destruct Hfirst as (-> & ->). reflexivity.
Qed.

(** The last three arguments of the movie command. *)
Lemma mov_command_tail (d : Dailies) (seq : Z * Z)
    (src_seq out_mov preset : string) (burnin slate : bool)
    (first_input : list string) :
  exists pre,
    mov_command d seq src_seq out_mov preset burnin slate first_input
    = pre ++ video_settings_of d preset
          ++ ["-filter_complex";
              mov_filters d (os_path_split src_seq).2 seq burnin slate;
              out_mov].
Proof.
  unfold mov_command, debug_pops.
  exists (_ffmpeg d :: "-y" :: first_input
            ++ ["-start_number"; PyStr.of_Z seq.1; "-i"; src_seq]).
  cbn [debug app delete list_delete]. rewrite <- !app_assoc. reflexivity.
Qed.

(** C7. With neither slate nor burn-in, the graph of the command a run of
    [make_mov] executes on an instance built by [__init__] is the scale to
    the canvas resolution and the aspect-ratio step that produce the label
    [base], followed by a pass-through. *)
Theorem make_mov_plain_graph_scales (src_seq out_mov preset r : string)
    (st st' : state) :
  from_init (self st) ->
  make_mov src_seq out_mov preset false false st = (Return r, st') ->
  exists pre,
    last (sp_calls st')
    = Some (pre ++ ["-filter_complex";
                    "[1:v] scale=1920:1080, setsar=1:1 [base]; [base] null ";
                    out_mov]).
Proof.
  intros Hinit Hrun.
  apply from_init_canvas in Hinit as [Hx Hy].
  apply make_mov_inv in Hrun
    as (seq & st1 & first_input & Hseq & (-> & ->) & -> & ->).
  destruct (mov_command_tail (self st) seq src_seq out_mov preset false false
              NULL_INPUT) as [pre Hcmd].
  exists (pre ++ video_settings_of (self st) preset).
  cbn [sp_calls]. rewrite last_snoc, Hcmd, <- app_assoc.
  unfold mov_filters, mov_base_filter. rewrite Hx, Hy. reflexivity.
Qed.

(** C9. A preset name that is not a key of the configured presets does not
    make [make_mov] raise: once the sequence is found (and, with a slate, once
    [make_slate] returns) the call returns the output path, and the command it
    executes carries the default encoding options, right before the graph. *)
Theorem make_mov_unknown_preset_defaults (src_seq out_mov preset : string)
    (burnin slate : bool) (seq : Z * Z) (st : state) :
  cfg_video_pressets (config (self st)) !! preset = None ->
  findSequenceOnDisk (PyStr.sub_frame_token src_seq) = Some seq ->
  (slate = true ->
   exists slate_path st1, make_slate src_seq st = (Return slate_path, st1)) ->
  exists st' pre graph,
    make_mov src_seq out_mov preset burnin slate st = (Return out_mov, st') /\
    last (sp_calls st')
    = Some (pre ++ ["-crf"; "18"; "-vcodec"; "mjpeg"; "-pix_fmt"; "yuvj444p";
                    "-qmin"; "1"; "-qmax"; "1"; "-r"; "24"]
                ++ ["-filter_complex"; graph; out_mov]).
Proof.
  intros Hpreset Hseq Hslate.
  assert (exists st1 first_input,
            if slate
            then exists slate_path,
                   make_slate src_seq st = (Return slate_path, st1) /\
                   first_input = ["-i"; slate_path]
            else st1 = st /\ first_input = NULL_INPUT)
    as (st1 & first_input & Hfirst).
  { destruct slate.
    - destruct (Hslate eq_refl) as (slate_path & st1 & Hrun).
      exists st1, ["-i"; slate_path], slate_path. done.
    - exists st, NULL_INPUT. done. }
  destruct (mov_command_tail (self st) seq src_seq out_mov preset burnin slate
              first_input) as [pre Hcmd].
  eexists _, pre, _. split.
  - exact (make_mov_returns _ _ _ _ _ _ _ _ _ Hseq Hfirst).
  - cbn [sp_calls]. rewrite last_snoc, Hcmd.
    unfold video_settings_of. rewrite Hpreset. reflexivity.
Qed.

(** *** The rows of the slate *)

(** The graph of [make_slate] is the head followed by the rows, one after the
    other. *)
Lemma slate_filters_rows (d : Dailies) (kw : string -> pyval) :
  slate_filters d kw
  = slate_head d kw
      +:+ PyStr.join ", " (imap (slate_row d kw) SLATE_ROWS) +:+ " ".
Proof.
  unfold slate_filters, slate_head, SLATE_ROWS, slate_row, slate_label_draw,
    slate_value_draw, slate_text, slate_p, slate_pv, PyStr.concat.
  cbn [imap foldr PyStr.join fst snd compose].
  append_normalise.
Qed.

Lemma dict_get_elem (k : string) (fd : list (string * pyval)) :
  k ∈ fd.*1 -> is_Some (dict_get k fd).
Proof.
  induction fd as [|[k' v'] fd IH]; intros Hin; [inversion Hin|].
  cbn [dict_get]. destruct (String.eqb_spec k' k) as [->|Hne]; [eauto|].
  apply IH. cbn in Hin. apply elem_of_cons in Hin as [->|Hin]; done.
Qed.

Lemma first_missing_all (keys : list string) (fd : list (string * pyval)) :
  (forall k, k ∈ keys -> k ∈ fd.*1) -> first_missing keys fd = None.
Proof.
  induction keys as [|k keys IH]; intros Hall; [reflexivity|].
  cbn [first_missing].
  destruct (dict_get_elem k fd) as [v ->].
  - apply Hall. apply elem_of_cons. by left.
  - apply IH. intros k' Hin. apply Hall. apply elem_of_cons. by right.
Qed.

Lemma SLATE_KWARGS_FIELD_KEYS (k : string) : k ∈ SLATE_KWARGS -> k ∈ FIELD_KEYS.
Proof.
  unfold SLATE_KWARGS, FIELD_KEYS. intros Hin.
  repeat (apply elem_of_cons in Hin as [->|Hin];
          [apply (bool_decide_unpack _); vm_compute; reflexivity|]).
  inversion Hin.
Qed.

Lemma slate_command_tail (d : Dailies) (seq : Z * Z) (src_seq output : string) :
  exists pre,
    slate_command d seq src_seq output
    = pre ++ ["-filter_complex";
              slate_filters d
                (fun k => default PyNone (dict_get k (fields_data d)));
              output].
Proof.
  exists [_ffmpeg d; "-y"; "-start_number"; PyStr.of_Z seq.1; "-i"; src_seq;
          "-f"; "lavfi"; "-i"; "color=c=black"; "-i"; bars d;
          "-i"; color_bars d; "-i"; logo d; "-vframes"; "1"].
  reflexivity.
Qed.

(** C5, as the code has it.  With the 13 keys in [fields_data], the temporary
    path allocated and the sequence found, [make_slate] returns, and the graph
    of the command it executes is the head (overlays, then two headline draws
    at fixed positions for [company_name] and [project_name]) followed by
    exactly one caption/value pair of text draws for each of the 11 other
    keys, in the key order of [fields_data], the pair of row [i] at the top
    margin plus [i] times the line spacing. *)
Theorem make_slate_rows (src_seq dir : string) (seq : Z * Z) (st : state) :
  tmp_dir_outcome = Return (Some dir) ->
  os_path_exists dir = true ->
  findSequenceOnDisk (PyStr.sub_frame_token src_seq) = Some seq ->
  (fields_data (self st)).*1 = FIELD_KEYS ->
  let output := os_path_join dir "tmp_slate.png" in
  let d := self st in
  let kw := fun k => default PyNone (dict_get k (fields_data d)) in
  exists st' pre,
    make_slate src_seq st = (Return output, st') /\
    last (sp_calls st')
    = Some (pre ++ ["-filter_complex";
                    slate_head d kw
                      +:+ PyStr.join ", " (imap (slate_row d kw) SLATE_ROWS)
                      +:+ " ";
                    output]) /\
    SLATE_ROWS.*1 = drop 2 FIELD_KEYS.
Proof.
  intros Hd Hex Hseq Hkeys output d kw.
  assert (first_missing SLATE_KWARGS (fields_data (self st)) = None) as Hfm.
  { apply first_missing_all. intros k Hk. rewrite Hkeys.
    apply SLATE_KWARGS_FIELD_KEYS, Hk. }
  destruct (slate_command_tail (self (register_tmp output st)) seq src_seq
              output) as [pre Hcmd].
  eexists _, pre. split; [|split].
  - exact (make_slate_returns src_seq dir seq st Hd Hex Hseq Hfm).
  - cbn [sp_calls]. rewrite last_snoc. fold output. rewrite Hcmd.
    rewrite <- (slate_filters_rows d kw). reflexivity.
  - reflexivity.
Qed.

End Properties.

(** C4, on the code.  With the date [12:30] and the user [O'Neil] in the
    fields, the graph of the slate command holds both values as they were
    given, between [text=] and the option separator, and holds neither in
    escaped form. *)
Theorem slate_values_spliced_unescaped :
  PyStr.contains ":text=12:30:x=" sample_slate_graph = true /\
  PyStr.contains ":text=O'Neil:x=" sample_slate_graph = true /\
  PyStr.contains (escape_reserved "12:30") sample_slate_graph = false /\
  PyStr.contains (escape_reserved "O'Neil") sample_slate_graph = false.
Proof. vm_compute. repeat split. Qed.

(** C5 as stated fails: the fields are 13 and the rows 11, and the value of
    the first key, [company_name], is not drawn in row 0. *)
Lemma slate_rows_skip_headline_keys :
  let d := self sample_populated in
  let kw := fun k => default PyNone (dict_get k (fields_data d)) in
  (fields_data d).*1 = FIELD_KEYS /\
  length FIELD_KEYS = 13%nat /\ length SLATE_ROWS = 11%nat /\
  ~ (forall i key,
       FIELD_KEYS !! i = Some key ->
       PyStr.contains (slate_value_draw d i (py_format (kw key)))
         sample_slate_graph = true).
Proof.
  repeat split.
  intros Hall. specialize (Hall 0%nat "company_name" eq_refl).
  vm_compute in Hall. discriminate.
Qed.

(** *** The theorems above at the sample runs *)

(** C1 at a run with the preset [h264]. *)
Lemma make_mov_slate_input_order_witness :
  let run := @make_mov Posix.sample_host sample_src sample_out "h264" true true
               Posix.sample_state in
  run.1 = Return sample_out /\
  exists slate_render mov_render slate_path,
    sp_calls run.2 = sp_calls Posix.sample_state ++ [slate_render; mov_render] /\
    last slate_render = Some slate_path /\
    ffmpeg_inputs mov_render !! 0%nat = Some (None, slate_path) /\
    ffmpeg_inputs mov_render !! 1%nat = Some (None, sample_src).
Proof.
  intros run. split; [vm_compute; reflexivity|].
  apply (@make_mov_slate_input_order Posix.sample_host sample_src sample_out
           "h264" sample_out Posix.sample_state run.2).
  vm_compute. reflexivity.
Defined.

(** C2 at a run with burn-in and no slate. *)
Lemma make_mov_no_slate_null_source_witness :
  let run := @make_mov Posix.sample_host sample_src sample_out "" true false
               Posix.sample_state in
  run.1 = Return sample_out /\
  exists mov_render,
    sp_calls run.2 = sp_calls Posix.sample_state ++ [mov_render] /\
    ffmpeg_inputs mov_render !! 0%nat
      = Some (Some "lavfi", "nullsrc=s=256x256:d=5") /\
    ffmpeg_inputs mov_render !! 1%nat = Some (None, sample_src).
Proof.
  intros run. split; [vm_compute; reflexivity|].
  apply (@make_mov_no_slate_null_source Posix.sample_host sample_src sample_out
           "" sample_out true Posix.sample_state run.2).
  vm_compute. reflexivity.
Defined.

(** C3 at the sample fields without [lut]. *)
Lemma missing_key_fails_before_invocation_witness :
  exists k st',
    k ∈ FIELD_KEYS /\ delete "lut" sample_fields !! k = None /\
    (fields_from_dict (delete "lut" sample_fields) ;;;
     @make_slate Posix.sample_host sample_src) Posix.sample_state
      = (Raise (KeyError k), st') /\
    sp_calls st' = sp_calls Posix.sample_state.
Proof.
  apply (@missing_key_fails_before_invocation Posix.sample_host).
  - reflexivity.
  - exists "lut". split; [|vm_compute; reflexivity].
    apply (bool_decide_unpack _). vm_compute. reflexivity.
Defined.

(** C5, as the code has it, at the populated instance. *)
Lemma make_slate_rows_witness :
  let d := self sample_populated in
  let kw := fun k => default PyNone (dict_get k (fields_data d)) in
  exists st' pre,
    @make_slate Posix.sample_host sample_src sample_populated
      = (Return "/tmp/tmp_slate.png", st') /\
    last (sp_calls st')
    = Some (pre ++ ["-filter_complex";
                    slate_head d kw
                      +:+ PyStr.join ", " (imap (slate_row d kw) SLATE_ROWS)
                      +:+ " ";
                    "/tmp/tmp_slate.png"]) /\
    SLATE_ROWS.*1 = drop 2 FIELD_KEYS.
Proof.
  apply (@make_slate_rows Posix.sample_host sample_src "/tmp" (1001, 1050)
           sample_populated); vm_compute; reflexivity.
Defined.

(** C6 at the populated instance. *)
Lemma make_slate_twice_same_command_witness :
  let run := @make_slate Posix.sample_host sample_src sample_populated in
  run.1 = Return "/tmp/tmp_slate.png" /\
  exists cmd st2,
    sp_calls run.2 = sp_calls sample_populated ++ [cmd] /\
    @make_slate Posix.sample_host sample_src run.2
      = (Return "/tmp/tmp_slate.png", st2) /\
    sp_calls st2 = sp_calls run.2 ++ [cmd].
Proof.
  intros run. split; [vm_compute; reflexivity|].
  apply (@make_slate_twice_same_command Posix.sample_host).
  vm_compute. reflexivity.
Defined.

(** C7 at a run with neither slate nor burn-in. *)
Lemma make_mov_plain_graph_scales_witness :
  let run := @make_mov Posix.sample_host sample_src sample_out "h264" false
               false Posix.sample_state in
  @from_init Posix.sample_host (self Posix.sample_state) /\
  exists pre,
    last (sp_calls run.2)
    = Some (pre ++ ["-filter_complex";
                    "[1:v] scale=1920:1080, setsar=1:1 [base]; [base] null ";
                    sample_out]).
Proof.
  intros run. split; [reflexivity|].
  apply (@make_mov_plain_graph_scales Posix.sample_host sample_src sample_out
           "h264" sample_out Posix.sample_state run.2).
  - reflexivity.
  - vm_compute. reflexivity.
Defined.

(** C8 at the host without [TMPDIR]. *)
Lemma _get_tmp_file_env_unset_witness :
  @required_env_var Posix.bare_host = Some "TMPDIR" /\
  @_get_tmp_file Posix.bare_host "tmp_slate.png" Posix.sample_state
    = (Raise TypeError, Posix.sample_state).
Proof.
  split; [reflexivity|].
  apply (@_get_tmp_file_env_unset Posix.bare_host "tmp_slate.png" "TMPDIR");
    vm_compute; reflexivity.
Defined.

(** C9 at the misspelled preset [h246]. *)
Lemma make_mov_unknown_preset_defaults_witness :
  cfg_video_pressets Posix.sample_config !! "h246" = None /\
  exists st' pre graph,
    @make_mov Posix.sample_host sample_src sample_out "h246" true true
      Posix.sample_state = (Return sample_out, st') /\
    last (sp_calls st')
    = Some (pre ++ ["-crf"; "18"; "-vcodec"; "mjpeg"; "-pix_fmt"; "yuvj444p";
                    "-qmin"; "1"; "-qmax"; "1"; "-r"; "24"]
                ++ ["-filter_complex"; graph; sample_out]).
Proof.
  split; [vm_compute; reflexivity|].
  apply (@make_mov_unknown_preset_defaults Posix.sample_host sample_src
           sample_out "h246" true true (1001, 1050) Posix.sample_state).
  - vm_compute. reflexivity.
  - reflexivity.
  - intros _. eexists _, _. vm_compute. reflexivity.
Defined.

(** C10 at the sample fields, alone and with an entry [reviewer] added. *)
Lemma fields_from_dict_frame_witness :
  let st' := {| self := set_fields_data (fields_of_dict sample_fields)
                          (self Posix.sample_state);
                sp_calls := [] |} in
  fields_from_dict sample_fields Posix.sample_state = (Return tt, st') /\
  fields_from_dict (<["reviewer" := PyStr "lead"]> sample_fields)
    Posix.sample_state = (Return tt, st').
Proof.
  intros st'.
  destruct (fields_from_dict_frame sample_fields Posix.sample_state)
    as (Hrun & _ & Hframe).
  - reflexivity.
  - intros k Hk. unfold FIELD_KEYS in Hk.
    repeat (apply elem_of_cons in Hk as [->|Hk]; [vm_compute; eauto|]).
    inversion Hk.
  - split; [exact Hrun|]. apply Hframe. intros k Hk.
    apply lookup_insert_ne. intros <-. revert Hk.
    apply (bool_decide_unpack _). vm_compute. reflexivity.
Defined.

(** * Further properties *)

(** ** Splitting and joining *)







(** ** The frame-number token of a sequence path *)

Lemma is_digit_not_percent (c : ascii) :
  PyStr.is_digit c = true -> Ascii.eqb c "%" = false.
Proof.
  intros Hd. destruct (Ascii.eqb_spec c "%") as [->|_]; [|reflexivity].
  vm_compute in Hd. discriminate.
Qed.

Lemma sub_frame_token_go_no_percent (s : string) :
  char_in "%" s = false -> PyStr.sub_frame_token_go None s = s.
Proof.
  induction s as [|c s IH]; [reflexivity|].
  cbn [char_in]. intros H. apply orb_false_elim in H as [Hc Hs].
  cbn [PyStr.sub_frame_token_go]. rewrite Hc, IH by assumption. reflexivity.
Qed.

(** After the percent sign and the digits read so far, more digits and a
    [d] complete the token. *)
Lemma sub_frame_token_go_digits (ds acc rest : string) :
  all_digits ds = true ->
  String.eqb (ds +:+ acc) "" = false ->
  PyStr.sub_frame_token_go (Some acc) (ds +:+ String "d" rest)
  = String "#" (PyStr.sub_frame_token_go None rest).
Proof.
  revert acc. induction ds as [|c ds IH]; intros acc Hds Hne.
  - change ("" +:+ String "d" rest) with (String "d" rest).
    change ("" +:+ acc) with acc in Hne.
    cbn [PyStr.sub_frame_token_go].
    change (Ascii.eqb "d" "%") with false.
    change (PyStr.is_digit "d") with false.
    change (Ascii.eqb "d" "d") with true.
    cbn iota. rewrite Hne. reflexivity.
  - cbn [all_digits] in Hds. apply andb_prop in Hds as [Hc Hds].
    change (String c ds +:+ String "d" rest)
      with (String c (ds +:+ String "d" rest)).
    cbn [PyStr.sub_frame_token_go].
    rewrite (is_digit_not_percent c Hc), Hc.
    apply IH; [assumption|].
    destruct ds; reflexivity.
Qed.

Lemma sub_frame_token_go_token (a ds rest : string) :
  char_in "%" a = false ->
  all_digits ds = true -> String.eqb ds "" = false ->
  PyStr.sub_frame_token_go None (a +:+ String "%" (ds +:+ String "d" rest))
  = a +:+ String "#" (PyStr.sub_frame_token_go None rest).
Proof.
  intros Ha Hds Hne. induction a as [|c a IH].
  - change ("" +:+ String "%" (ds +:+ String "d" rest))
      with (String "%" (ds +:+ String "d" rest)).
    cbn [PyStr.sub_frame_token_go].
    change (Ascii.eqb "%" "%") with true. cbn iota.
    rewrite sub_frame_token_go_digits; [reflexivity|assumption|].
    rewrite append_empty_r. exact Hne.
  - cbn [char_in] in Ha. apply orb_false_elim in Ha as [Hc Ha].
    change (String c a +:+ ?x) with (String c (a +:+ x)).
    cbn [PyStr.sub_frame_token_go]. rewrite Hc, IH by assumption.
    reflexivity.
Qed.

(** ** The placeholder of the frame counter *)

Lemma prefix_cons (a c : ascii) (t s : string) :
  String.prefix (String a t) (String c s)
  = Ascii.eqb a c && String.prefix t s.
Proof.
  cbn [String.prefix]. destruct (ascii_dec a c) as [->|Hne].
  - rewrite Ascii.eqb_refl. reflexivity.
  - apply Ascii.eqb_neq in Hne. rewrite Hne. reflexivity.
Qed.

(** A text that holds no [a] can be dropped in front when looking for a
    pattern that starts with [a]. *)
Lemma contains_skip_prefix (a : ascii) (t u x : string) :
  char_in a u = false ->
  PyStr.contains (String a t) (u +:+ x) = PyStr.contains (String a t) x.
Proof.
  induction u as [|c u IH]; [reflexivity|].
  cbn [char_in]. intros H. apply orb_false_elim in H as [Hc Hu].
  change (String c u +:+ x) with (String c (u +:+ x)).
  cbn [PyStr.contains]. rewrite prefix_cons, IH by assumption.
  rewrite Ascii.eqb_sym, Hc. reflexivity.
Qed.

(** Replacing cannot complete an occurrence of the rest of the pattern: what
    the result starts with, the text started with already, as long as it
    holds neither the first character of the pattern nor that of the
    replacement. *)
Lemma prefix_replace (a n0 : ascii) (t new' u s : string) :
  char_in a u = false -> char_in n0 u = false ->
  String.prefix u
    (PyStr.replace_from O (String a t) (String n0 new') s) = true ->
  String.prefix u s = true.
Proof.
  revert s. induction u as [|x u IH]; intros s Ha Hn; [intros _; destruct s; reflexivity|].
  cbn [char_in] in Ha, Hn.
  apply orb_false_elim in Ha as [Hxa Ha].
  apply orb_false_elim in Hn as [Hxn Hn].
  destruct s as [|c s]; [cbn; discriminate|].
  cbn [PyStr.replace_from].
  destruct (String.prefix (String a t) (String c s)) eqn:Hocc.
  - change (String n0 new' +:+ ?r) with (String n0 (new' +:+ r)).
    rewrite prefix_cons, Hxn. discriminate.
  - rewrite !prefix_cons. intros H. apply andb_prop in H as [Hxc H].
    rewrite Hxc. apply (IH s); assumption.
Qed.

(** With a pattern whose first character occurs nowhere else in it nor in
    the replacement, and a replacement whose first character does not occur
    in the rest of the pattern, no occurrence is left and none is made. *)
Lemma replace_from_leaves_none (a n0 : ascii) (t new' : string) :
  char_in a t = false -> char_in a (String n0 new') = false ->
  char_in n0 t = false ->
  forall (s : string) (skip : nat),
    PyStr.contains (String a t)
      (PyStr.replace_from skip (String a t) (String n0 new') s) = false.
Proof.
  intros Hat Han Hnt. induction s as [|c s IH]; intros skip.
  - reflexivity.
  - cbn [PyStr.replace_from]. destruct skip as [|k]; [|apply IH].
    destruct (String.prefix (String a t) (String c s)) eqn:Hocc.
    + rewrite contains_skip_prefix by assumption. apply IH.
    + cbn [PyStr.contains]. rewrite IH, orb_false_r.
      rewrite prefix_cons in Hocc |- *.
      destruct (Ascii.eqb a c); [|reflexivity]. cbn [andb] in Hocc |- *.
      destruct (String.prefix t (PyStr.replace_from O _ _ s)) eqn:Hpre;
        [|reflexivity].
      apply prefix_replace in Hpre; [congruence|assumption..].
Qed.

(** ** The loop over the components of the Windows path *)

Lemma list_index_fresh (x : string) (l1 l2 : list string) :
  Forall (fun y => y <> x) l1 ->
  list_index x (l1 ++ x :: l2) = Some (length l1).
Proof.
  induction 1 as [|y l1 Hy _ IH]; cbn [app list_index length].
  - rewrite String.eqb_refl. reflexivity.
  - destruct (String.eqb_spec y x) as [->|_]; [done|].
    rewrite IH. reflexivity.
Qed.

Lemma untilde_differs (user item x : string) :
  PyStr.contains "~1" user = false ->
  PyStr.contains "~1" item = true ->
  untilde user x <> item.
Proof.
  intros Huser Hitem. unfold untilde.
  destruct (PyStr.contains "~1" x) eqn:Hx; congruence.
Qed.

Section TildeLoop.

Context {host : Host}.

Lemma tilde_step_next (pre post : list string) (item : string) :
  PyStr.contains "~1" getpass_getuser = false ->
  tilde_step ((untilde getpass_getuser <$> pre) ++ item :: post) (length pre)
  = (untilde getpass_getuser <$> (pre ++ [item])) ++ post.
Proof.
  intros Huser. unfold tilde_step.
  rewrite lookup_app_r by (rewrite length_fmap; lia).
  rewrite length_fmap, Nat.sub_diag. cbn [lookup list_lookup].
  rewrite fmap_app, <- app_assoc. cbn [fmap list_fmap app].
  assert (untilde getpass_getuser item
          = if PyStr.contains "~1" item then getpass_getuser else item)
    as -> by reflexivity.
  destruct (PyStr.contains "~1" item) eqn:Hitem; [|reflexivity].
  rewrite list_index_fresh.
  - rewrite insert_app_r_alt by lia. rewrite Nat.sub_diag. reflexivity.
  - apply Forall_fmap, Forall_forall. intros x _.
    apply untilde_differs; assumption.
Qed.

Lemma tilde_loop_from (pre post : list string) :
  PyStr.contains "~1" getpass_getuser = false ->
  foldl tilde_step ((untilde getpass_getuser <$> pre) ++ post)
    (seq (length pre) (length post))
  = untilde getpass_getuser <$> (pre ++ post).
Proof.
  intros Huser. revert pre. induction post as [|item post IH]; intros pre.
  - cbn [length seq foldl]. rewrite !app_nil_r. reflexivity.
  - cbn [length seq foldl]. rewrite tilde_step_next by assumption.
    replace (S (length pre)) with (length (pre ++ [item]))
      by (rewrite length_app; cbn; lia).
    rewrite IH, <- app_assoc. reflexivity.
Qed.

Lemma tilde_loop (tmp : list string) :
  PyStr.contains "~1" getpass_getuser = false ->
  foldl tilde_step tmp (seq 0 (length tmp)) = untilde getpass_getuser <$> tmp.
Proof. intros Huser. exact (tilde_loop_from [] tmp Huser). Qed.

End TildeLoop.

(** ** Populating the fields *)

Lemma dict_set_keys (k : string) (v : pyval) (d : list (string * pyval)) :
  k ∈ d.*1 -> (dict_set k v d).*1 = d.*1.
Proof.
  induction d as [|[k' v'] d IH]; intros Hin; [inversion Hin|].
  cbn [dict_set]. destruct (String.eqb_spec k' k) as [->|Hne]; [reflexivity|].
  cbn. f_equal. apply IH.
  cbn in Hin. apply elem_of_cons in Hin as [->|Hin]; done.
Qed.

Lemma fields_loop_keys (fields_dict : gmap string pyval)
    (items : list (string * pyval)) (st st' : state) (o : outcome unit) :
  (forall k, k ∈ items.*1 -> k ∈ (fields_data (self st)).*1) ->
  fields_loop items fields_dict st = (o, st') ->
  (fields_data (self st')).*1 = (fields_data (self st)).*1.
Proof.
  revert st. induction items as [|[k old] items IH]; intros st Hsub.
  - intros [= <- <-]. reflexivity.
  - cbn [fields_loop]. destruct (fields_dict !! k) as [v|].
    + unfold bind at 1, modify_self at 1. intros Hrun.
      assert (k ∈ (fields_data (self st)).*1) as Hk.
      { apply Hsub. cbn. apply elem_of_cons. by left. }
      apply IH in Hrun.
      * rewrite Hrun. cbn [self fields_data set_fields_data].
        apply dict_set_keys, Hk.
      * intros k' Hk'. cbn [self fields_data set_fields_data].
        rewrite dict_set_keys by assumption.
        apply Hsub. cbn. apply elem_of_cons. by right.
    + intros [= <- <-]. reflexivity.
Qed.

(** X15. [fields_from_dict] neither adds, removes nor reorders the keys of
    [self.fields_data], whether it returns or raises. *)
Theorem fields_from_dict_keeps_keys (fields_dict : gmap string pyval)
    (st st' : state) (o : outcome unit) :
  fields_from_dict fields_dict st = (o, st') ->
  (fields_data (self st')).*1 = (fields_data (self st)).*1.
Proof.
  unfold fields_from_dict, bind at 1, get_self at 1.
  apply fields_loop_keys. auto.
Qed.

Lemma fields_loop_stops (fields_dict : gmap string pyval) (k : string)
    (old : pyval) (before after done : list (string * pyval)) (st : state) :
  NoDup ((done ++ before ++ (k, old) :: after).*1) ->
  fields_data (self st) = done ++ before ++ (k, old) :: after ->
  (forall k', k' ∈ before.*1 -> is_Some (fields_dict !! k')) ->
  fields_dict !! k = None ->
  fields_loop (before ++ (k, old) :: after) fields_dict st
  = (Raise (KeyError k),
     {| self :=
          set_fields_data
            (done ++ (field_from fields_dict <$> before) ++ (k, old) :: after)
            (self st);
        sp_calls := sp_calls st |}).
Proof.
  revert done st.
  induction before as [|[k0 old0] before IH]; intros done st Hnd Hfd Hall Hk.
  - cbn [app fields_loop fmap list_fmap]. rewrite Hk.
    cbn [app] in Hfd. rewrite <- Hfd. destruct st as [[] ?]. reflexivity.
  - cbn [app fields_loop].
    destruct (Hall k0) as [v Hv]; [cbn; apply elem_of_cons; by left|].
    rewrite Hv. unfold bind at 1, modify_self at 1.
    assert (k0 ∉ done.*1) as Hfresh.
    { rewrite fmap_app in Hnd. apply NoDup_app in Hnd as (_ & Hdisj & _).
      intros Hin. apply (Hdisj k0 Hin). cbn. apply elem_of_cons. by left. }
    cbn [app] in Hfd. rewrite Hfd, dict_set_app_fresh by assumption.
    rewrite (IH (done ++ [(k0, v)])).
    + cbn [self sp_calls fmap list_fmap]. unfold field_from at 2.
      cbn [fst]. rewrite Hv. rewrite <- app_assoc. reflexivity.
    + rewrite <- app_assoc, fmap_app. rewrite fmap_app in Hnd. exact Hnd.
    + cbn [self fields_data set_fields_data]. rewrite <- app_assoc.
      reflexivity.
    + intros k' Hin. apply Hall. cbn. apply elem_of_cons. by right.
    + exact Hk.
Qed.

(** X16. The update is not atomic: when [k] is the first key of the fields
    that the mapping lacks, [fields_from_dict] raises [KeyError] for [k]
    after it has overwritten every field before [k]; [k] and the fields
    after it keep their values, and no command is executed. *)
Theorem fields_from_dict_partial_update (fields_dict : gmap string pyval)
    (k : string) (old : pyval) (before after : list (string * pyval))
    (st : state) :
  NoDup ((fields_data (self st)).*1) ->
  fields_data (self st) = before ++ (k, old) :: after ->
  (forall k', k' ∈ before.*1 -> is_Some (fields_dict !! k')) ->
  fields_dict !! k = None ->
  fields_from_dict fields_dict st
  = (Raise (KeyError k),
     {| self :=
          set_fields_data
            ((field_from fields_dict <$> before) ++ (k, old) :: after)
            (self st);
        sp_calls := sp_calls st |}).
Proof.
  intros Hnd Hfd Hall Hk.
  unfold fields_from_dict, bind at 1, get_self at 1. rewrite Hfd.
  rewrite (fields_loop_stops fields_dict k old before after [] st);
    try assumption; [reflexivity|].
  cbn [app]. rewrite <- Hfd. exact Hnd.
Qed.

Lemma fields_from_dict_complete (fields_dict : gmap string pyval) (st : state) :
  NoDup ((fields_data (self st)).*1) ->
  (forall k, k ∈ (fields_data (self st)).*1 -> is_Some (fields_dict !! k)) ->
  fields_from_dict fields_dict st
  = (Return tt,
     {| self := set_fields_data (field_from fields_dict <$> fields_data (self st))
                  (self st);
        sp_calls := sp_calls st |}).
Proof.
  intros Hnd Hall. unfold fields_from_dict, bind at 1, get_self at 1.
  rewrite (fields_loop_ok fields_dict (fields_data (self st)) [] st);
    [reflexivity|assumption|reflexivity|assumption].
Qed.

(** X17. The last mapping wins: populating the fields from one complete
    mapping and then from another leaves the state that populating from the
    second alone leaves. *)
Theorem fields_from_dict_last_wins (first second : gmap string pyval)
    (st : state) :
  NoDup ((fields_data (self st)).*1) ->
  (forall k, k ∈ (fields_data (self st)).*1 ->
     is_Some (first !! k) /\ is_Some (second !! k)) ->
  (fields_from_dict first ;;; fields_from_dict second) st
  = fields_from_dict second st.
Proof.
  intros Hnd Hall. unfold bind at 1.
  rewrite (fields_from_dict_complete first) by (try assumption; apply Hall).
  assert ((field_from first <$> fields_data (self st)).*1
          = (fields_data (self st)).*1) as Hkeys.
  { rewrite <- list_fmap_compose. reflexivity. }
  rewrite !fields_from_dict_complete; cbn [self sp_calls fields_data set_fields_data];
    rewrite ?Hkeys; try assumption; try (intros k Hk; apply (Hall k Hk)).
  rewrite <- list_fmap_compose. reflexivity.
Qed.

(** ** Errors, frames and success conditions of the methods *)

Ltac unfold_m :=
  unfold bind, ret, raise, get_self, modify_self, sp_call in *.

Lemma set_tmp_files_same (d : Dailies) : set_tmp_files (tmp_files d) d = d.
Proof. destruct d. reflexivity. Qed.

Section MoreProperties.

Context {host : Host}.

(** X1. A temporary directory that is determined but does not exist is not
    created: [_get_tmp_file] ends with [AttributeError] (the module [os] has
    no [mkdirs]) and registers nothing. *)
Theorem _get_tmp_file_missing_dir (name dir : string) (st : state) :
  tmp_dir_outcome = Return (Some dir) ->
  os_path_exists dir = false ->
  _get_tmp_file name st = (Raise AttributeError, st).
Proof.
  intros Hd Hex. unfold _get_tmp_file. unfold_m.
  rewrite _get_tmp_dir_pure, Hd, Hex. reflexivity.
Qed.

(** What a call of [_get_tmp_file] can do to the state. *)
Lemma _get_tmp_file_frame (name : string) (st st' : state) (o : outcome string) :
  _get_tmp_file name st = (o, st') ->
  (exists path, o = Return path /\ st' = register_tmp path st) \/
  ((exists e, o = Raise e) /\ st' = st).
Proof.
  unfold _get_tmp_file. unfold_m. rewrite _get_tmp_dir_pure.
  destruct tmp_dir_outcome as [[dir|]|e];
    [|intros [= <- <-]; right; eauto..].
  destruct (os_path_exists dir); intros [= <- <-]; [left|right]; eauto.
Qed.

(** What a call of [make_slate] can do to the state. *)
Lemma make_slate_frame (src_seq : string) (st st' : state) (o : outcome string) :
  make_slate src_seq st = (o, st') ->
  ((exists e, o = Raise e) /\
   (st' = st \/ exists path, st' = register_tmp path st)) \/
  (exists output cmd,
     o = Return output /\
     st' = {| self := self (register_tmp output st);
              sp_calls := sp_calls st ++ [cmd] |}).
Proof.
  unfold make_slate, bind at 1.
  destruct (_get_tmp_file "tmp_slate.png" st) as [o1 st1] eqn:Htmp.
  apply _get_tmp_file_frame in Htmp as [(path & -> & ->)|((e & ->) & ->)].
  - unfold _get_seq, slate_kwargs. unfold_m.
    destruct (findSequenceOnDisk _);
      [|intros [= <- <-]; left; split; eauto].
    destruct (first_missing _ _); intros [= <- <-].
    + left. split; eauto.
    + right. eauto.
  - intros [= <- <-]. left. split; eauto.
Qed.




(** X8. When the sequence is not found, [make_slate] raises the library's
    exception after the temporary path was allocated: the path stays in
    [tmp_files] although nothing was rendered. *)
Theorem make_slate_no_sequence_registers (src_seq dir : string) (st : state) :
  tmp_dir_outcome = Return (Some dir) ->
  os_path_exists dir = true ->
  findSequenceOnDisk (PyStr.sub_frame_token src_seq) = None ->
  make_slate src_seq st
  = (Raise FileSeqException,
     register_tmp (os_path_join dir "tmp_slate.png") st).
Proof.
  intros Hd Hex Hseq. unfold make_slate, bind at 1.
  rewrite (_get_tmp_file_returns _ dir) by assumption.
  unfold _get_seq. unfold_m. rewrite Hseq. reflexivity.
Qed.

(** X9. Whatever its outcome, [make_mov] leaves the fields and every
    attribute but [tmp_files] as they were, appends at most one path to
    [tmp_files] and at most two commands to those executed; without a slate
    it leaves the instance untouched. *)
Theorem make_mov_frame (src_seq out_mov preset : string)
    (burnin slate : bool) (o : outcome string) (st st' : state) :
  make_mov src_seq out_mov preset burnin slate st = (o, st') ->
  exists new_tmp new_calls,
    self st' = set_tmp_files (tmp_files (self st) ++ new_tmp) (self st) /\
    sp_calls st' = sp_calls st ++ new_calls /\
    (length new_tmp <= 1)%nat /\ (length new_calls <= 2)%nat /\
    (slate = false -> new_tmp = []).
Proof.
  unfold make_mov, _get_seq. unfold bind at 1 2. unfold get_self at 1.
  destruct (findSequenceOnDisk _) as [seq|].
  2:{ intros [= <- <-]. exists [], [].
      rewrite !app_nil_r, set_tmp_files_same. cbn. auto with lia. }
  unfold ret at 1. destruct slate.
  - unfold bind at 1 2.
    destruct (make_slate src_seq st) as [o1 st1] eqn:Hslate.
    apply make_slate_frame in Hslate
      as [((e & ->) & [->|(path & ->)])|(output & cmd & -> & ->)].
    + intros [= <- <-]. exists [], [].
      rewrite !app_nil_r, set_tmp_files_same. cbn. auto with lia.
    + intros [= <- <-]. exists [path], [].
      rewrite !app_nil_r. cbn. auto with lia.
    + unfold_m. intros [= <- <-]. eexists [output], [cmd; _].
      cbn [self sp_calls register_tmp]. rewrite <- app_assoc.
      cbn. auto with lia.
  - unfold_m. intros [= <- <-]. eexists [], [_].
    rewrite !app_nil_r, set_tmp_files_same. cbn. auto with lia.
Qed.

End MoreProperties.

(** ** Reading the commands, and the texts spliced into them *)


Lemma slate_filters_not_flag (d : Dailies) (kw : string -> pyval) :
  String.eqb (slate_filters d kw) "-i" = false /\
  String.eqb (slate_filters d kw) "-f" = false.
Proof. split; reflexivity. Qed.


Section Commands.

Context {host : Host}.

(** X5. The slate command reads exactly five inputs, in the order the
    graph numbers them: the source sequence (stream 0), the generated black
    plate (1), the bars (2), the color bars (3) and the logo (4). *)
Theorem make_slate_five_inputs (src_seq output : string) (st st' : state) :
  make_slate src_seq st = (Return output, st') ->
  exists cmd,
    last (sp_calls st') = Some cmd /\
    ffmpeg_inputs cmd
    = [(None, src_seq); (Some "lavfi", "color=c=black");
       (None, bars (self st)); (None, color_bars (self st));
       (None, logo (self st))].
Proof.
  intros Hrun.
  apply make_slate_inv in Hrun as (dir & seq & _ & _ & -> & _ & _ & ->).
  eexists. cbn [sp_calls]. rewrite last_snoc. split; [reflexivity|].
  unfold slate_command, debug_pops, slate_cmd, ffmpeg_inputs.
  cbn [debug delete list_delete tail inputs_from String.eqb Ascii.eqb
       Bool.eqb].
  rewrite of_Z_not_i, of_Z_not_f.
  cbn [inputs_from String.eqb Ascii.eqb Bool.eqb].
  destruct (slate_filters_not_flag (self (register_tmp
              (os_path_join dir "tmp_slate.png") st))
              (fun k => default PyNone
                 (dict_get k (fields_data (self (register_tmp
                    (os_path_join dir "tmp_slate.png") st))))))
    as [-> ->].
  reflexivity.
Qed.


(** X11. The placeholder of the frame counter never reaches the engine:
    whatever the file name and the flags, the graph of the movie command
    holds no [@frame_number]. *)
Theorem make_mov_graph_no_placeholder (src_seq out_mov preset r : string)
    (burnin slate : bool) (st st' : state) :
  make_mov src_seq out_mov preset burnin slate st = (Return r, st') ->
  exists pre graph,
    last (sp_calls st') = Some (pre ++ ["-filter_complex"; graph; out_mov]) /\
    PyStr.contains "@frame_number" graph = false.
Proof.
  intros Hrun.
  apply make_mov_inv in Hrun
    as (seq & st1 & first_input & _ & _ & -> & ->).
  destruct (mov_command_tail (self st) seq src_seq out_mov preset burnin slate
              first_input) as [pre Hcmd].
  eexists (pre ++ video_settings_of (self st) preset), _.
  cbn [sp_calls]. rewrite last_snoc, Hcmd, <- app_assoc.
  split; [reflexivity|].
  unfold mov_filters, PyStr.replace.
  apply (replace_from_leaves_none "@" "%" "frame_number" "{n}"); reflexivity.
Qed.

(** X12. A path with one printf-style frame token, [%] followed by digits
    and [d], is looked up in the sequence library with [#] in place of the
    token. *)
Theorem _get_seq_frame_token (a ds b : string) (st : state) :
  char_in "%" a = false -> char_in "%" b = false ->
  all_digits ds = true -> String.eqb ds "" = false ->
  _get_seq (a +:+ String "%" (ds +:+ String "d" b)) st
  = (match findSequenceOnDisk (a +:+ String "#" b) with
     | Some se => Return se
     | None => Raise FileSeqException
     end, st).
Proof.
  intros Ha Hb Hds Hne. unfold _get_seq, PyStr.sub_frame_token.
  rewrite sub_frame_token_go_token by assumption.
  rewrite sub_frame_token_go_no_percent by assumption.
  destruct (findSequenceOnDisk _); reflexivity.
Qed.

(** X13. A path without a percent sign is looked up as it is. *)
Theorem _get_seq_no_token (path : string) (st : state) :
  char_in "%" path = false ->
  _get_seq path st
  = (match findSequenceOnDisk path with
     | Some se => Return se
     | None => Raise FileSeqException
     end, st).
Proof.
  intros Hp. unfold _get_seq, PyStr.sub_frame_token.
  rewrite sub_frame_token_go_no_percent by assumption.
  destruct (findSequenceOnDisk _); reflexivity.
Qed.

(** X4. On Windows, with [TEMP] set and a user name that holds no [~1],
    the temporary directory is the absolute path of [TEMP] with forward
    slashes, every component that holds [~1] replaced by the user name. *)
Theorem _get_tmp_dir_windows (v : string) (st : state) :
  sys_platform = "win32" ->
  os_environ !! "TEMP" = Some v ->
  PyStr.contains "~1" getpass_getuser = false ->
  _get_tmp_dir st
  = (Return
       (Some (PyStr.join "/"
                (untilde getpass_getuser
                   <$> PyStr.split "/"
                         (PyStr.replace "\" "/" (os_path_abspath v))))),
     st).
Proof.
  intros Hplat Henv Huser. unfold _get_tmp_dir. rewrite Hplat.
  change (String.eqb "win32" "darwin" || PyStr.contains "linux" "win32")
    with false.
  change (String.eqb "win32" "win32") with true. cbn iota.
  rewrite Henv, tilde_loop by assumption. reflexivity.
Qed.

End Commands.


(** ** What holds after any sequence of calls *)

Section Reachable.

Context {host : Host}.

Lemma _get_tmp_file_raises (name : string) (e : exn) (st st' : state) :
  _get_tmp_file name st = (Raise e, st') ->
  e = TypeError \/ e = AttributeError.
Proof.
  unfold _get_tmp_file, _get_tmp_dir. unfold_m.
  repeat case_match; intros [= <- <-]; simplify_eq; auto.
Qed.

Lemma make_slate_fields (src_seq : string) (o : outcome string)
    (st st' : state) :
  make_slate src_seq st = (o, st') ->
  fields_data (self st') = fields_data (self st).
Proof.
  intros Hrun. apply make_slate_frame in Hrun
    as [(_ & [->|(path & ->)])|(output & cmd & _ & ->)]; reflexivity.
Qed.

Lemma make_mov_fields (src_seq out_mov preset : string) (burnin slate : bool)
    (o : outcome string) (st st' : state) :
  make_mov src_seq out_mov preset burnin slate st = (o, st') ->
  fields_data (self st') = fields_data (self st).
Proof.
  unfold make_mov, _get_seq. unfold bind at 1 2. unfold get_self at 1.
  destruct (findSequenceOnDisk _); [|intros [= <- <-]; reflexivity].
  unfold ret at 1. destruct slate.
  - unfold bind at 1 2.
    destruct (make_slate src_seq st) as [[output|e] st1] eqn:Hslate;
      apply make_slate_fields in Hslate; unfold_m;
      intros [= <- <-]; exact Hslate.
  - unfold_m. intros [= <- <-]. reflexivity.
Qed.

Lemma run_call_fields_keys (c : call) (st : state) :
  (fields_data (self (run_call st c))).*1 = (fields_data (self st)).*1.
Proof.
  destruct c as [fields_dict|name|src_seq|src_seq out_mov preset burnin slate];
    cbn [run_call].
  - destruct (fields_from_dict fields_dict st) as [o st'] eqn:Hrun.
    revert Hrun. unfold fields_from_dict, bind at 1, get_self at 1.
    apply fields_loop_keys. auto.
  - destruct (_get_tmp_file name st) as [o st'] eqn:Hrun.
    apply _get_tmp_file_frame in Hrun as [(path & _ & ->)|(_ & ->)];
      reflexivity.
  - destruct (make_slate src_seq st) as [o st'] eqn:Hrun.
    apply make_slate_fields in Hrun. cbn [snd]. rewrite Hrun. reflexivity.
  - destruct (make_mov src_seq out_mov preset burnin slate st) as [o st']
      eqn:Hrun.
    apply make_mov_fields in Hrun. cbn [snd]. rewrite Hrun. reflexivity.
Qed.

Lemma run_call_attributes (c : call) (st : state) :
  same_attributes (self (run_call st c)) (self st).
Proof.
  destruct c as [fields_dict|name|src_seq|src_seq out_mov preset burnin slate];
    cbn [run_call].
  - destruct (fields_from_dict fields_dict st) as [o st'] eqn:Hrun.
    exact (fields_from_dict_attributes _ _ _ _ Hrun).
  - destruct (_get_tmp_file name st) as [o st'] eqn:Hrun.
    exact (_get_tmp_file_attributes _ _ _ _ Hrun).
  - destruct (make_slate src_seq st) as [o st'] eqn:Hrun.
    exact (make_slate_attributes _ _ _ _ Hrun).
  - destruct (make_mov src_seq out_mov preset burnin slate st) as [o st']
      eqn:Hrun.
    exact (make_mov_attributes _ _ _ _ _ _ _ _ Hrun).
Qed.

Lemma after_calls_invariant (calls : list call) :
  (fields_data (self (after_calls calls))).*1 = FIELD_KEYS /\
  from_init (self (after_calls calls)).
Proof.
  unfold after_calls. induction calls as [|c calls IH] using rev_ind.
  - split; reflexivity.
  - rewrite foldl_snoc. destruct IH as [Hkeys Hinit]. split.
    + rewrite run_call_fields_keys. exact Hkeys.
    + unfold from_init in *. unfold same_attributes in *.
      rewrite <- Hinit. apply run_call_attributes.
Qed.

(** X10. After [Dailies()] and any sequence of calls of [fields_from_dict],
    [_get_tmp_file], [make_slate] and [make_mov], whether they returned or
    raised, the fields are the 13 keys in their order and the attributes are
    those [__init__] set; so [make_slate] on such an instance never raises
    [KeyError]. *)
Theorem after_calls_keys_and_no_KeyError (calls : list call) :
  (fields_data (self (after_calls calls))).*1 = FIELD_KEYS /\
  from_init (self (after_calls calls)) /\
  forall (src_seq k : string) (st' : state),
    make_slate src_seq (after_calls calls) <> (Raise (KeyError k), st').
Proof.
  destruct (after_calls_invariant calls) as [Hkeys Hinit].
  split; [exact Hkeys|]. split; [exact Hinit|].
  intros src_seq k st'.
  assert (first_missing SLATE_KWARGS
            (fields_data (self (after_calls calls))) = None) as Hfm.
  { apply first_missing_all. intros k' Hk'. rewrite Hkeys.
    apply SLATE_KWARGS_FIELD_KEYS, Hk'. }
  unfold make_slate, bind at 1.
  destruct (_get_tmp_file "tmp_slate.png" (after_calls calls))
    as [[path|e] st1] eqn:Htmp.
  - apply _get_tmp_file_inv in Htmp as (dir & _ & _ & _ & ->).
    unfold _get_seq, slate_kwargs. unfold_m.
    destruct (findSequenceOnDisk _); [|discriminate].
    cbn [self register_tmp fields_data set_tmp_files]. rewrite Hfm.
    discriminate.
  - apply _get_tmp_file_raises in Htmp as [->| ->]; discriminate.
Qed.

End Reachable.

(** ** [get_media_info] *)

Section MediaProperties.

Context {probe : Probe}.

(** X18. When the output of the probe reads as a dictionary whose
    [streams] is a list with at least one element, [get_media_info] returns
    the first element, however many follow. *)
Theorem get_media_info_first_stream (d : Dailies) (path result : string)
    (entries : list (string * json)) (stream : json) (others : list json) :
  sp_check_output (media_cmd d path) = inr result ->
  json_loads result = Some (JDict entries) ->
  json_dict_get "streams" entries = Some (JList (stream :: others)) ->
  get_media_info d path = MediaReturn stream.
Proof.
  intros Hout Hjson Hstreams. unfold get_media_info. rewrite Hout, Hjson.
  destruct entries as [|entry entries]; [discriminate|].
  cbn [truthy length Nat.eqb negb py_get]. rewrite Hstreams.
  cbn [default py_len length].
  unfold first_stream, py_subscript. rewrite Hstreams. cbn [py_first].
  destruct others; reflexivity.
Qed.

(** X19. When the output reads as a non-empty dictionary without the key
    [streams], [get_media_info] does not return the empty dictionary: the
    length of [None] is taken and [TypeError] leaves the method. *)
Theorem get_media_info_no_streams_key (d : Dailies) (path result : string)
    (entries : list (string * json)) :
  sp_check_output (media_cmd d path) = inr result ->
  json_loads result = Some (JDict entries) ->
  entries <> [] ->
  json_dict_get "streams" entries = None ->
  get_media_info d path = MediaRaise (Builtin TypeError).
Proof.
  intros Hout Hjson Hne Hstreams. unfold get_media_info. rewrite Hout, Hjson.
  destruct entries as [|entry entries]; [done|].
  cbn [truthy length Nat.eqb negb py_get]. rewrite Hstreams. reflexivity.
Qed.

(** X20. When the output reads as a dictionary whose [streams] is the empty
    list, or as a value Python takes for false, [get_media_info] returns the
    empty dictionary. *)
Theorem get_media_info_empty (d : Dailies) (path result : string)
    (output : json) :
  sp_check_output (media_cmd d path) = inr result ->
  json_loads result = Some output ->
  truthy output = false \/
  (exists entries, output = JDict entries /\
                   json_dict_get "streams" entries = Some (JList [])) ->
  get_media_info d path = MediaReturn (JDict []).
Proof.
  intros Hout Hjson Hcase. unfold get_media_info. rewrite Hout, Hjson.
  destruct Hcase as [Hfalse|(entries & -> & Hstreams)].
  - rewrite Hfalse. reflexivity.
  - destruct (truthy (JDict entries)); [|reflexivity].
    cbn [negb py_get]. rewrite Hstreams. reflexivity.
Qed.

End MediaProperties.

(** ** The slate path, and the graph with a slate only *)

Section SlatePath.

Context {host : Host}.

(** X21. The slate path is the same for every sequence and every state of
    the instance: a second call of [make_slate], for whatever sequence,
    returns the path of the first, and [tmp_files] then holds it twice. *)
Theorem make_slate_fixed_path (src_seq other_seq first_path second_path : string)
    (st st1 st2 : state) :
  make_slate src_seq st = (Return first_path, st1) ->
  make_slate other_seq st1 = (Return second_path, st2) ->
  second_path = first_path /\
  tmp_files (self st2) = tmp_files (self st) ++ [first_path; first_path].
Proof.
  intros Hfirst Hsecond.
  apply make_slate_inv in Hfirst as (dir & seq & Hd & _ & -> & _ & _ & ->).
  apply make_slate_inv in Hsecond as (dir' & seq' & Hd' & _ & -> & _ & _ & ->).
  rewrite Hd in Hd'. injection Hd' as <-.
  split; [reflexivity|].
  cbn [self register_tmp tmp_files set_tmp_files].
  rewrite <- app_assoc. reflexivity.
Qed.

(** X22. With a slate and no burn-in, the graph of the movie command on an
    instance built by [__init__] scales the sequence to the canvas, trims the
    slate image to its single frame and puts it before the sequence. *)
Theorem make_mov_slate_graph (src_seq out_mov preset r : string)
    (st st' : state) :
  from_init (self st) ->
  make_mov src_seq out_mov preset false true st = (Return r, st') ->
  exists pre,
    last (sp_calls st')
    = Some (pre ++ ["-filter_complex";
                    "[1:v] scale=1920:1080, setsar=1:1 [base]; [base] null [base]; [0:v] trim=start_frame=0:end_frame=1 [slate]; [slate][base] concat ";
                    out_mov]).
Proof.
  intros Hinit Hrun.
  apply from_init_canvas in Hinit as [Hx Hy].
  apply make_mov_inv in Hrun
    as (seq & st1 & first_input & _ & _ & -> & ->).
  destruct (mov_command_tail (self st) seq src_seq out_mov preset false true
              first_input) as [pre Hcmd].
  exists (pre ++ video_settings_of (self st) preset).
  cbn [sp_calls]. rewrite last_snoc, Hcmd, <- app_assoc.
  unfold mov_filters, mov_base_filter. rewrite Hx, Hy. reflexivity.
Qed.

(** X23. On a platform that is neither [darwin], nor one with [linux] in
    its name, nor [win32], no temporary directory is determined and
    [_get_tmp_file] raises [TypeError], whatever the environment holds. *)
Theorem _get_tmp_file_unknown_platform (name : string) (st : state) :
  required_env_var = None ->
  _get_tmp_file name st = (Raise TypeError, st).
Proof.
  unfold required_env_var, _get_tmp_file, _get_tmp_dir. unfold_m.
  destruct (String.eqb sys_platform "darwin" || _); [discriminate|].
  destruct (String.eqb sys_platform "win32"); [discriminate|].
  reflexivity.
Qed.

End SlatePath.

(** ** The further properties at sample runs *)

(** X1 at the host with an empty disk. *)
Lemma _get_tmp_file_missing_dir_witness :
  let st := {| self := @Dailies_init empty_disk_host; sp_calls := [] |} in
  @os_path_exists empty_disk_host "/tmp" = false /\
  @_get_tmp_file empty_disk_host "tmp_slate.png" st = (Raise AttributeError, st).
Proof.
  intros st. split; [reflexivity|].
  apply (@_get_tmp_file_missing_dir empty_disk_host "tmp_slate.png" "/tmp" st);
    vm_compute; reflexivity.
Defined.

(** X4 at the Windows host, whose [TEMP] holds [EVILEY~1]. *)
Lemma _get_tmp_dir_windows_witness :
  @_get_tmp_dir Windows.sample_host Windows.sample_state
  = (Return (Some "C:/Users/evileye_52/AppData/Local/Temp"),
     Windows.sample_state).
Proof.
  apply (@_get_tmp_dir_windows Windows.sample_host
           "C:\Users\EVILEY~1\AppData\Local\Temp" Windows.sample_state);
    vm_compute; reflexivity.
Defined.

(** X5 at the populated instance. *)
Lemma make_slate_five_inputs_witness :
  let run := @make_slate Posix.sample_host sample_src sample_populated in
  run.1 = Return "/tmp/tmp_slate.png" /\
  exists cmd,
    last (sp_calls run.2) = Some cmd /\
    ffmpeg_inputs cmd
    = [(None, sample_src); (Some "lavfi", "color=c=black");
       (None, "/opt/dailies/resources/bars.png");
       (None, "/opt/dailies/resources/color_bars.png");
       (None, "/opt/dailies/resources/logo.png")].
Proof.
  intros run. split; [vm_compute; reflexivity|].
  apply (@make_slate_five_inputs Posix.sample_host sample_src
           "/tmp/tmp_slate.png" sample_populated run.2).
  vm_compute. reflexivity.
Defined.



(** X8 at the host on which no sequence is found. *)
Lemma make_slate_no_sequence_registers_witness :
  let st := {| self := @Dailies_init no_sequence_host; sp_calls := [] |} in
  let run := @make_slate no_sequence_host sample_src st in
  run.1 = Raise FileSeqException /\
  tmp_files (self run.2) = ["/tmp/tmp_slate.png"] /\ sp_calls run.2 = [].
Proof.
  intros st run.
  pose proof (@make_slate_no_sequence_registers no_sequence_host sample_src
                "/tmp" st eq_refl eq_refl eq_refl) as Hrun.
  subst run. rewrite Hrun. repeat split.
Defined.

(** X9 at a run with a slate. *)
Lemma make_mov_frame_witness :
  let run := @make_mov Posix.sample_host sample_src sample_out "" true true
               Posix.sample_state in
  exists new_tmp new_calls,
    self run.2
    = set_tmp_files (tmp_files (self Posix.sample_state) ++ new_tmp)
        (self Posix.sample_state) /\
    sp_calls run.2 = sp_calls Posix.sample_state ++ new_calls /\
    (length new_tmp <= 1)%nat /\ (length new_calls <= 2)%nat /\
    (true = false -> new_tmp = []).
Proof.
  intros run.
  apply (@make_mov_frame Posix.sample_host sample_src sample_out "" true true
           run.1 Posix.sample_state run.2).
  vm_compute. reflexivity.
Defined.

(** X11 at a run with the burn-in. *)
Lemma make_mov_graph_no_placeholder_witness :
  let run := @make_mov Posix.sample_host sample_src sample_out "" true false
               Posix.sample_state in
  exists pre graph,
    last (sp_calls run.2) = Some (pre ++ ["-filter_complex"; graph; sample_out]) /\
    PyStr.contains "@frame_number" graph = false.
Proof.
  intros run.
  apply (@make_mov_graph_no_placeholder Posix.sample_host sample_src sample_out
           "" sample_out true false Posix.sample_state run.2).
  vm_compute. reflexivity.
Defined.

(** X12 at the sample path. *)
Lemma _get_seq_frame_token_witness :
  "/shots/sh010." +:+ String "%" ("04" +:+ String "d" ".exr") = sample_src /\
  @_get_seq Posix.sample_host sample_src Posix.sample_state
  = (match @findSequenceOnDisk Posix.sample_host "/shots/sh010.#.exr" with
     | Some se => Return se
     | None => Raise FileSeqException
     end, Posix.sample_state).
Proof.
  split; [reflexivity|].
  apply (@_get_seq_frame_token Posix.sample_host "/shots/sh010." "04" ".exr"
           Posix.sample_state); reflexivity.
Defined.

(** X13 at the path of a single image. *)
Lemma _get_seq_no_token_witness :
  @_get_seq Posix.sample_host "/shots/still.exr" Posix.sample_state
  = (match @findSequenceOnDisk Posix.sample_host "/shots/still.exr" with
     | Some se => Return se
     | None => Raise FileSeqException
     end, Posix.sample_state).
Proof.
  apply (@_get_seq_no_token Posix.sample_host "/shots/still.exr"
           Posix.sample_state). reflexivity.
Defined.


(** X15 at the sample fields without [lut], where the call raises. *)
Lemma fields_from_dict_keeps_keys_witness :
  let run := fields_from_dict (delete "lut" sample_fields) Posix.sample_state in
  run.1 = Raise (KeyError "lut") /\
  (fields_data (self run.2)).*1 = (fields_data (self Posix.sample_state)).*1.
Proof.
  intros run. split; [vm_compute; reflexivity|].
  apply (fields_from_dict_keeps_keys (delete "lut" sample_fields)
           Posix.sample_state run.2 run.1).
  vm_compute. reflexivity.
Defined.

(** X16 at the sample fields without [lut]: the two fields before [lut] are
    written, the others are not. *)
Lemma fields_from_dict_partial_update_witness :
  let run := fields_from_dict (delete "lut" sample_fields) Posix.sample_state in
  run.1 = Raise (KeyError "lut") /\
  take 3 (fields_data (self run.2))
  = [("company_name", PyStr "ACME"); ("project_name", PyStr "Heist");
     ("lut", PyNone)] /\
  drop 3 (fields_data (self run.2))
  = drop 3 (fields_data (self Posix.sample_state)).
Proof.
  intros run.
  pose proof (fields_from_dict_partial_update (delete "lut" sample_fields)
                "lut" PyNone
                [("company_name", PyNone); ("project_name", PyNone)]
                (drop 3 (fields_data (self Posix.sample_state)))
                Posix.sample_state) as Hrun.
  subst run. rewrite Hrun.
  - vm_compute. repeat split.
  - apply (bool_decide_unpack _). vm_compute. reflexivity.
  - reflexivity.
  - intros k Hk. cbn in Hk.
    repeat (apply elem_of_cons in Hk as [->|Hk]; [vm_compute; eauto|]).
    inversion Hk.
  - vm_compute. reflexivity.
Defined.

(** X17 at the sample fields, first with and then without a description. *)
Lemma fields_from_dict_last_wins_witness :
  (fields_from_dict (<["description" := PyStr "first pass"]> sample_fields) ;;;
   fields_from_dict sample_fields) Posix.sample_state
  = fields_from_dict sample_fields Posix.sample_state.
Proof.
  apply (fields_from_dict_last_wins
           (<["description" := PyStr "first pass"]> sample_fields)
           sample_fields Posix.sample_state).
  - apply (bool_decide_unpack _). vm_compute. reflexivity.
  - intros k Hk. cbn in Hk.
    repeat (apply elem_of_cons in Hk as [->|Hk];
            [split; vm_compute; eauto|]).
    inversion Hk.
Defined.

(** X18 at the probe that reports two streams. *)
Lemma get_media_info_first_stream_witness :
  @get_media_info two_stream_probe (self Posix.sample_state) sample_out
  = MediaReturn video_stream.
Proof.
  apply (@get_media_info_first_stream two_stream_probe
           (self Posix.sample_state) sample_out "streams: h264, mjpeg"
           [("streams", JList [video_stream; second_stream])]
           video_stream [second_stream]); reflexivity.
Defined.

(** X19 at the probe that reports the format only. *)
Lemma get_media_info_no_streams_key_witness :
  @get_media_info format_only_probe (self Posix.sample_state) sample_out
  = MediaRaise (Builtin TypeError).
Proof.
  apply (@get_media_info_no_streams_key format_only_probe
           (self Posix.sample_state) sample_out "format: mov"
           [("format", JStr "mov")]); try reflexivity.
  discriminate.
Defined.

(** X20 at the probe that reports no stream. *)
Lemma get_media_info_empty_witness :
  @get_media_info no_stream_probe (self Posix.sample_state) sample_out
  = MediaReturn (JDict []).
Proof.
  apply (@get_media_info_empty no_stream_probe (self Posix.sample_state)
           sample_out "streams: none" (JDict [("streams", JList [])]));
    try reflexivity.
  right. exists [("streams", JList [])]. split; reflexivity.
Defined.

(** X21 at two sequences, one after the other. *)
Lemma make_slate_fixed_path_witness :
  let first := @make_slate Posix.sample_host sample_src sample_populated in
  let second := @make_slate Posix.sample_host "/shots/sh020.%04d.exr" first.2 in
  first.1 = Return "/tmp/tmp_slate.png" /\
  second.1 = Return "/tmp/tmp_slate.png" /\
  tmp_files (self second.2) = ["/tmp/tmp_slate.png"; "/tmp/tmp_slate.png"].
Proof.
  intros first second.
  destruct (@make_slate_fixed_path Posix.sample_host sample_src
              "/shots/sh020.%04d.exr" "/tmp/tmp_slate.png" "/tmp/tmp_slate.png"
              sample_populated first.2 second.2) as [_ Htmp].
  - vm_compute. reflexivity.
  - vm_compute. reflexivity.
  - split; [vm_compute; reflexivity|]. split; [vm_compute; reflexivity|].
    exact Htmp.
Defined.

(** X22 at a run with a slate and no burn-in. *)
Lemma make_mov_slate_graph_witness :
  let run := @make_mov Posix.sample_host sample_src sample_out "h264" false
               true Posix.sample_state in
  exists pre,
    last (sp_calls run.2)
    = Some (pre ++ ["-filter_complex";
                    "[1:v] scale=1920:1080, setsar=1:1 [base]; [base] null [base]; [0:v] trim=start_frame=0:end_frame=1 [slate]; [slate][base] concat ";
                    sample_out]).
Proof.
  intros run.
  apply (@make_mov_slate_graph Posix.sample_host sample_src sample_out "h264"
           sample_out Posix.sample_state run.2).
  - reflexivity.
  - vm_compute. reflexivity.
Defined.

(** X23 at the host that runs FreeBSD, with [TMPDIR] set. *)
Lemma _get_tmp_file_unknown_platform_witness :
  let st := {| self := @Dailies_init freebsd_host; sp_calls := [] |} in
  @os_environ freebsd_host !! "TMPDIR" = Some "/tmp" /\
  @_get_tmp_file freebsd_host "tmp_slate.png" st = (Raise TypeError, st).
Proof.
  intros st. split; [vm_compute; reflexivity|].
  apply (@_get_tmp_file_unknown_platform freebsd_host "tmp_slate.png" st).
  reflexivity.
Defined.
